(** * AgenticLetters CLI: a shallow embedding of [agentic_letters.py]

    The development follows the layout of the Python module: the error
    taxonomy ([ErrorOrigin], [CLIError], [die]), the HTTP client
    ([_request], [send_letter], ...), the resolution of the API key
    ([load_api_key]) and the command line entry point ([main]).

    Conventions.
    - A Python [str] is a Rocq [string], one [ascii] per code point, so the
      texts of the model are those whose code points are below 256.
    - Python [bytes] are [list byte].
    - Values that come out of [json.loads] are [pyval]s.  A [dict] keeps its
      insertion order, as in Python, and is an association list.
    - Code that prints, calls the network or terminates the process runs in
      the monad [M]: it passes a [World] along (standard output, standard
      error, the log of the network calls) and ends in an [Outcome]: a
      returned value, a call of [die], or an exception nobody catches.
    - The file system, the process environment, the stream behind standard
      output and the remote server are an [Env] of oracles the program
      reads. *)

From Stdlib Require Import ZArith NArith List String Ascii Bool Lia DecimalString PrimFloat.
From Stdlib.Strings Require Import Byte.
Import ListNotations.
Local Open Scope string_scope.

(* ------------------------------------------------------------------ *)
(** * Python values and the string methods the program uses            *)
(* ------------------------------------------------------------------ *)

Module Py.

(** What [json.loads] can return, which is also what the fields of a
    [CLIError] can hold at run time: the dataclass does not check its
    annotations. *)
#[warnings="-register-all"] Inductive pyval : Type :=
| PyNone
| PyBool (b : bool)
| PyInt (n : Z)
| PyFloat (f : float)
| PyStr (s : string)
| PyList (xs : list pyval)
| PyDict (kvs : list (string * pyval)).

(** The exceptions of the model that no handler of the program catches. *)
Inductive PyExn : Type :=
| AttributeError
| IndexError
| JSONDecodeError
| OtherExn (name : string).

(** [bool(v)], as an [if v:] tests it. *)
Definition truthy (v : pyval) : bool :=
  match v with
  | PyNone => false
  | PyBool b => b
  | PyInt n => negb (n =? 0)%Z
  | PyFloat f => negb (PrimFloat.eqb f 0%float)
  | PyStr s => negb (s =? "")
  | PyList xs => match xs with [] => false | _ :: _ => true end
  | PyDict kvs => match kvs with [] => false | _ :: _ => true end
  end.

(** [str(n)] for an [int]. *)
Definition str_int (n : Z) : string := NilZero.string_of_int (Z.to_int n).

(** ** Dictionaries *)

Fixpoint dict_lookup (k : string) (kvs : list (string * pyval)) : option pyval :=
  match kvs with
  | [] => None
  | (k', v) :: rest => if k' =? k then Some v else dict_lookup k rest
  end.

(** [d[k] = v]: the value of an existing key is replaced where it stands,
    a new key goes last. *)
Fixpoint dict_set (k : string) (v : pyval) (kvs : list (string * pyval))
  : list (string * pyval) :=
  match kvs with
  | [] => [(k, v)]
  | (k', v') :: rest =>
      if k' =? k then (k, v) :: rest else (k', v') :: dict_set k v rest
  end.

(** [d.get(k, default)] on the items of a dict. *)
Definition dict_get (k : string) (default : pyval) (kvs : list (string * pyval)) : pyval :=
  match dict_lookup k kvs with
  | Some v => v
  | None => default
  end.

Definition dict_keys (kvs : list (string * pyval)) : list string := map fst kvs.

(** ** Strings *)

(** [str.isspace] on one code point below 256. *)
Definition isspace (c : ascii) : bool :=
  let n := N_of_ascii c in
  ((9 <=? n) && (n <=? 13) || (28 <=? n) && (n <=? 32) || (n =? 133) || (n =? 160))%N.

Fixpoint lstrip_with (p : ascii -> bool) (s : string) : string :=
  match s with
  | EmptyString => EmptyString
  | String c s' => if p c then lstrip_with p s' else s
  end.

Fixpoint rstrip_with (p : ascii -> bool) (s : string) : string :=
  match s with
  | EmptyString => EmptyString
  | String c s' =>
      match rstrip_with p s' with
      | EmptyString => if p c then EmptyString else String c EmptyString
      | r => String c r
      end
  end.

Definition strip_with (p : ascii -> bool) (s : string) : string :=
  lstrip_with p (rstrip_with p s).

(** [s.strip()]. *)
Definition strip (s : string) : string := strip_with isspace s.

(** [s.strip(c)] for a one-character argument. *)
Definition strip_char (c : ascii) (s : string) : string :=
  strip_with (Ascii.eqb c) s.

(** [s.startswith(p)]. *)
Definition startswith (s p : string) : bool := prefix p s.

(** [s.split(sep, 1)] for a one-character separator. *)
Fixpoint split1 (sep : ascii) (s : string) : list string :=
  match s with
  | EmptyString => [EmptyString]
  | String c s' =>
      if Ascii.eqb c sep then [EmptyString; s']
      else match split1 sep s' with
           | h :: t => String c h :: t
           | [] => [String c EmptyString]
           end
  end.

(** The line boundaries of [str.splitlines] below code point 256. *)
Definition is_linebreak (c : ascii) : bool :=
  let n := N_of_ascii c in
  ((10 <=? n) && (n <=? 13) || (28 <=? n) && (n <=? 30) || (n =? 133))%N.

(** [s.splitlines()]: [cur] is the line being read, last character first.
    A carriage return followed by a line feed ends one line, and text with
    no line ending after the last boundary makes a last line. *)
Fixpoint splitlines_from (cur : list ascii) (s : string) : list string :=
  match s with
  | EmptyString =>
      match cur with
      | [] => []
      | _ :: _ => [string_of_list_ascii (rev cur)]
      end
  | String c s' =>
      if is_linebreak c then
        string_of_list_ascii (rev cur) ::
          match s' with
          | String c' s'' =>
              if (Ascii.eqb c "013" && Ascii.eqb c' "010")%bool
              then splitlines_from [] s''
              else splitlines_from [] s'
          | EmptyString => []
          end
      else splitlines_from (c :: cur) s'
  end.

Definition splitlines (s : string) : list string := splitlines_from [] s.

(** [sep.join(parts)]. *)
Fixpoint join (sep : string) (parts : list string) : string :=
  match parts with
  | [] => ""
  | [p] => p
  | p :: rest => p ++ sep ++ join sep rest
  end.

(** [s.encode()]: UTF-8, for code points below 256. *)
Definition byte_of_N (n : N) : byte :=
  match Byte.of_N n with Some b => b | None => x00 end.

Definition encode_char (c : ascii) : list byte :=
  let n := N_of_ascii c in
  if (n <? 128)%N then [byte_of_N n]
  else [byte_of_N (N.lor 192 (N.shiftr n 6)); byte_of_N (N.lor 128 (N.land n 63))].

Fixpoint encode (s : string) : list byte :=
  match s with
  | EmptyString => []
  | String c s' => encode_char c ++ encode s'
  end.

(** [b.decode()] for bytes that are ASCII, which is all the program
    decodes (the output of [b64encode]). *)
Definition decode (b : list byte) : string := string_of_list_byte b.

End Py.

Import Py.

(* ------------------------------------------------------------------ *)
(** * [base64.b64encode] (RFC 4648, standard alphabet, with padding)    *)
(* ------------------------------------------------------------------ *)

Module Base64.

Definition alphabet : string :=
  "ABCDEFGHIJKLMNOPQRSTUVWXYZabcdefghijklmnopqrstuvwxyz0123456789+/".

Definition pad : byte := byte_of_ascii "=".

(** The character of a 6-bit group. *)
Definition sextet (i : N) : byte :=
  match String.get (N.to_nat (N.land i 63)) alphabet with
  | Some c => byte_of_ascii c
  | None => pad
  end.

Fixpoint b64encode (bs : list byte) : list byte :=
  match bs with
  | [] => []
  | [a] =>
      let n := N.shiftl (Byte.to_N a) 16 in
      [sextet (N.shiftr n 18); sextet (N.shiftr n 12); pad; pad]
  | [a; b] =>
      let n := N.lor (N.shiftl (Byte.to_N a) 16) (N.shiftl (Byte.to_N b) 8) in
      [sextet (N.shiftr n 18); sextet (N.shiftr n 12); sextet (N.shiftr n 6); pad]
  | a :: b :: c :: rest =>
      let n := N.lor (N.lor (N.shiftl (Byte.to_N a) 16) (N.shiftl (Byte.to_N b) 8))
                     (Byte.to_N c) in
      sextet (N.shiftr n 18) :: sextet (N.shiftr n 12) ::
      sextet (N.shiftr n 6) :: sextet n :: b64encode rest
  end.

End Base64.

(* ------------------------------------------------------------------ *)
(** * Configuration                                                     *)
(* ------------------------------------------------------------------ *)

Definition API_BASE : string := "https://agentic-letters.com/api".
Definition ENV_VAR : string := "AGENTIC_LETTERS_API_KEY".

(* ------------------------------------------------------------------ *)
(** * Error handling                                                    *)
(* ------------------------------------------------------------------ *)

Inductive ErrorOrigin : Type := LOCAL | SERVER | NETWORK.

(** [ErrorOrigin.value]. *)
Definition ErrorOrigin_value (o : ErrorOrigin) : string :=
  match o with
  | LOCAL => "local"
  | SERVER => "server"
  | NETWORK => "network"
  end.

(** The dataclass.  [message], [code], [detail] and [field] are annotated
    with [str] but receive whatever the JSON body of the server holds, so
    they are [pyval]s, [PyNone] being Python's [None]; [http_status] only
    ever receives the status of an [HTTPError]. *)
Record CLIError : Type := mkCLIError {
  origin : ErrorOrigin;
  message : pyval;
  code : pyval;
  detail : pyval;
  field : pyval;
  http_status : option Z
}.

(** A [urllib.request.Request]. *)
Record Request : Type := mkRequest {
  url : string;
  data : option (list byte);
  headers : list (string * string);
  method : string
}.

(** The process, as the program can change it. *)
Record World : Type := mkWorld {
  stdout : string;                   (* what was printed to sys.stdout *)
  stderr : string;                   (* what was printed to sys.stderr *)
  requests : list (Request * Z);     (* the urlopen calls, with their timeout *)
  b64_inputs : list (list byte)      (* the arguments of base64.b64encode *)
}.

Inductive Outcome (A : Type) : Type :=
| Ret (a : A)                (* the call returns [a] *)
| Die (err : CLIError)       (* [die(err)] was called: SystemExit(1) *)
| Uncaught (exn : PyExn).    (* an exception reaches the top level *)

Arguments Ret {A} a.
Arguments Die {A} err.
Arguments Uncaught {A} exn.

(** The exit status of the interpreter: 0 when [main] returns, the argument
    of [sys.exit] after [die], and 1 after a traceback. *)
Definition exit_status {A : Type} (o : Outcome A) : Z :=
  match o with
  | Ret _ => 0
  | Die _ => 1
  | Uncaught _ => 1
  end.

Definition M (A : Type) : Type := World -> Outcome A * World.

Definition ret {A : Type} (a : A) : M A := fun w => (Ret a, w).

Definition bind {A B : Type} (m : M A) (k : A -> M B) : M B :=
  fun w =>
    match m w with
    | (Ret a, w1) => k a w1
    | (Die e, w1) => (Die e, w1)
    | (Uncaught x, w1) => (Uncaught x, w1)
    end.

Definition raise {A : Type} (exn : PyExn) : M A := fun w => (Uncaught exn, w).

Declare Scope py_scope.
Delimit Scope py_scope with py.
Notation "x <- m ;; k" := (bind m (fun x => k))
  (at level 61, m at next level, right associativity) : py_scope.
Notation "m ;;; k" := (bind m (fun _ => k))
  (at level 61, right associativity) : py_scope.
Local Open Scope py_scope.

Definition newline : string := String "010" EmptyString.

(** The four ways the program changes the world. *)
Definition add_stdout (s : string) (w : World) : World :=
  mkWorld (stdout w ++ s) (stderr w) (requests w) (b64_inputs w).

Definition add_stderr (s : string) (w : World) : World :=
  mkWorld (stdout w) (stderr w ++ s) (requests w) (b64_inputs w).

Definition add_request (req : Request) (timeout : Z) (w : World) : World :=
  mkWorld (stdout w) (stderr w) (requests w ++ [(req, timeout)]) (b64_inputs w).

Definition add_b64_input (b : list byte) (w : World) : World :=
  mkWorld (stdout w) (stderr w) (requests w) (b64_inputs w ++ [b]).

(** [print(s, file=sys.stderr)]: the stream replaces what it cannot encode
    by an escape, so the text is always written. *)
Definition print_stderr (s : string) : M unit :=
  fun w => (Ret tt, add_stderr (s ++ newline) w).

(** [sys.exit(1)] inside [die]: the outcome remembers the error. *)
Definition sys_exit_1 {A : Type} (err : CLIError) : M A := fun w => (Die err, w).

(** [base64.b64encode(b)]: the call is logged. *)
Definition b64encode (b : list byte) : M (list byte) :=
  fun w => (Ret (Base64.b64encode b), add_b64_input b w).

(** [d.get(k, default)]: only a [dict] has the method. *)
Definition py_get (d : pyval) (k : string) (default : pyval) : M pyval :=
  match d with
  | PyDict kvs => ret (dict_get k default kvs)
  | PyNone | PyBool _ | PyInt _ | PyFloat _ | PyStr _ | PyList _ => raise AttributeError
  end.

(** ** The outside of the process *)

(** What [os.stat] tells about a path. *)
Inductive PathState : Type :=
| Absent          (* nothing at the path *)
| NotRegular      (* a directory, a socket, ...: exists() holds, is_file() not *)
| RegularFile
| StatFails (exn : PyExn).
                  (* stat raises an OSError that pathlib does not take for
                     an absent path: no search permission on a directory
                     of the path (EACCES), a name that is too long
                     (ENAMETOOLONG), ... *)

Inductive ReadResult : Type :=
| ReadOk (content : list byte)
| ReadPermissionError               (* read_bytes raises PermissionError *)
| ReadOSError (str_e : string).     (* another OSError [e], with [str(e)] *)

Inductive TextResult : Type :=
| TextOk (text : string)
| TextRaises (exn : PyExn).

(** What [urlopen(req, timeout=...)] followed by [json.loads(resp.read())]
    does inside the [try] of [_request].  [parsed] is the result of
    [json.loads] on the body, [None] when reading or parsing raises an
    [Exception]; [reason] is [str(e.reason)].  urlopen wraps every OSError
    of connecting and of sending the request in a URLError, the timeout of
    the socket among them: that one arrives as [RaiseURLError] with the
    reason [timed out].  A timeout while the response is awaited or read
    arrives as [RaiseTimeoutError]. *)
Inductive UrlOutcome : Type :=
| Response (parsed : option pyval)
| RaiseHTTPError (status : Z) (reason : string) (parsed : option pyval)
| RaiseURLError (reason : string)
| RaiseTimeoutError
| RaiseOther (exn : PyExn).

(** What the file system holds at a path; for what is there, with what
    [read_bytes()] and [read_text()] do on it. *)
Inductive Entry : Type :=
| NoEntry                        (* nothing *)
| NoAccess (exn : PyExn)         (* the path cannot be looked up: stat, and
                                    opening the file, raise [exn] *)
| Special (bytes : ReadResult) (text : TextResult)
                                 (* a directory, a pipe, a device, ... *)
| File (bytes : ReadResult) (text : TextResult).
                                 (* a regular file *)

(** The environment variables, the file system, the terminal and the
    server.  [stdout_error s] is the exception [sys.stdout.write(s)] raises,
    if any: UnicodeEncodeError when the encoding of the stream has no bytes
    for a character of [s]. *)
Class Env : Type := mkEnv {
  os_environ : string -> option string;
  fs_entry : string -> Entry;
  stdout_error : string -> option PyExn;
  net_reply : Request -> Z -> UrlOutcome
}.

(** [os.stat(p)], as [exists()] and [is_file()] see it. *)
Definition fs_state {env : Env} (p : string) : PathState :=
  match fs_entry p with
  | NoEntry => Absent
  | NoAccess exn => StatFails exn
  | Special _ _ => NotRegular
  | File _ _ => RegularFile
  end.

(** [Path(p).read_bytes()]. *)
Definition fs_read_bytes {env : Env} (p : string) : ReadResult :=
  match fs_entry p with
  | File bytes _ | Special bytes _ => bytes
  | NoEntry => ReadOSError "[Errno 2] No such file or directory"
  | NoAccess (OtherExn name) =>
      if name =? "PermissionError" then ReadPermissionError else ReadOSError name
  | NoAccess _ => ReadOSError "OSError"
  end.

(** [Path(p).read_text()]. *)
Definition fs_read_text {env : Env} (p : string) : TextResult :=
  match fs_entry p with
  | File _ text | Special _ text => text
  | NoEntry => TextRaises (OtherExn "FileNotFoundError")
  | NoAccess exn => TextRaises exn
  end.

(** The functions of the interpreter's library whose results the program
    only passes on, and the one constant that depends on the user. *)
Class PyLib : Type := mkPyLib {
  py_repr : pyval -> string;
    (* str(v) for a float, a list or a dict *)
  json_dumps : pyval -> string;
    (* json.dumps(v) *)
  json_dumps_indent2 : pyval -> string;
    (* json.dumps(v, indent=2, ensure_ascii=False) *)
  ENV_FILE : string
    (* os.path.expanduser("~/.openclaw/secrets/agentic_letters.env") *)
}.

(* ------------------------------------------------------------------ *)
(** * The program                                                       *)
(* ------------------------------------------------------------------ *)

Section Program.

Context {lib : PyLib} {env : Env}.

(** [Path(p).exists()] and [Path(p).is_file()]: both call [stat], answer
    [False] when it reports an absent path, and pass on every other OSError;
    the program calls them outside of any [try]. *)
Definition Path_exists (p : string) : M bool :=
  match fs_state p with
  | Absent => ret false
  | NotRegular | RegularFile => ret true
  | StatFails exn => raise exn
  end.

Definition Path_is_file (p : string) : M bool :=
  match fs_state p with
  | RegularFile => ret true
  | Absent | NotRegular => ret false
  | StatFails exn => raise exn
  end.

(** [print(s)]: the text is encoded for the stream before anything is
    written, so a text the stream cannot encode leaves the output as it
    was, and the exception is passed on. *)
Definition print (s : string) : M unit :=
  fun w =>
    match stdout_error s with
    | Some exn => (Uncaught exn, w)
    | None => (Ret tt, add_stdout (s ++ newline) w)
    end.

(** [urllib.request.urlopen(req, timeout=t)]: the call is logged. *)
Definition urlopen (req : Request) (timeout : Z) : M UrlOutcome :=
  fun w => (Ret (net_reply req timeout), add_request req timeout w).

(** [str(v)], as an f-string formats a value. *)
Definition py_str (v : pyval) : string :=
  match v with
  | PyNone => "None"
  | PyBool true => "True"
  | PyBool false => "False"
  | PyInt n => str_int n
  | PyStr s => s
  | PyFloat _ | PyList _ | PyDict _ => py_repr v
  end.

(** [if self.http_status:] and [str(self.http_status)]. *)
Definition status_truthy (s : option Z) : bool :=
  match s with
  | Some n => negb (n =? 0)%Z
  | None => false
  end.

Definition str_status (s : option Z) : string :=
  match s with
  | Some n => str_int n
  | None => "None"
  end.

(** [CLIError.format]. *)
Definition format_parts (self : CLIError) : list string :=
  let parts := ["[" ++ ErrorOrigin_value (origin self) ++ "] " ++ py_str (message self)] in
  let parts := if truthy (code self)
               then app parts ["  code: " ++ py_str (code self)] else parts in
  let parts := if status_truthy (http_status self)
               then app parts ["  http_status: " ++ str_status (http_status self)] else parts in
  let parts := if truthy (detail self)
               then app parts ["  detail: " ++ py_str (detail self)] else parts in
  let parts := if truthy (field self)
               then app parts ["  field: " ++ py_str (field self)] else parts in
  parts.

Definition format (self : CLIError) : string := join newline (format_parts self).

Definition die {A : Type} (err : CLIError) : M A :=
  print_stderr (format err) ;;; sys_exit_1 err.

(** [die_local(message, detail=detail)]; [detail] is [PyNone] when the
    keyword is left out. *)
Definition die_local {A : Type} (message : string) (detail : pyval) : M A :=
  die (mkCLIError LOCAL (PyStr message) PyNone detail PyNone None).

(** ** API client *)

Record AgenticLettersClient : Type := mkClient { _api_key : string }.

Definition _headers (self : AgenticLettersClient) : list (string * string) :=
  [ ("Authorization", "Bearer " ++ _api_key self);
    ("Content-Type", "application/json");
    ("User-Agent", "agentic-letters-skill/1.0") ].

(** The first three lines of [_request]: the [Request] object. *)
Definition build_request (self : AgenticLettersClient) (method path : string) (body : pyval)
  : Request :=
  let url := API_BASE ++ path in
  let data := if truthy body then Some (encode (json_dumps body)) else None in
  mkRequest url data (_headers self) method.

(** [_request(method, path, body)]; [body] is [PyNone] when left out. *)
Definition _request (self : AgenticLettersClient) (method path : string) (body : pyval)
  : M pyval :=
  let req := build_request self method path body in
  r <- urlopen req 60 ;;
  match r with
  | Response (Some v) => ret v
  | Response None => raise JSONDecodeError
  | RaiseHTTPError e_code e_reason parsed =>
      match parsed with
      | None =>
          die (mkCLIError SERVER
                 (PyStr ("HTTP " ++ str_int e_code ++ " with non-JSON response"))
                 PyNone (PyStr e_reason) PyNone (Some e_code))
      | Some error_body =>
          msg <- py_get error_body "error" (PyStr ("HTTP " ++ str_int e_code)) ;;
          cod <- py_get error_body "code" PyNone ;;
          det <- py_get error_body "detail" PyNone ;;
          fld <- py_get error_body "field" PyNone ;;
          die (mkCLIError SERVER msg cod det fld (Some e_code))
      end
  | RaiseURLError e_reason =>
      die (mkCLIError NETWORK (PyStr "Could not reach the API")
             PyNone (PyStr e_reason) PyNone None)
  | RaiseTimeoutError =>
      die (mkCLIError NETWORK (PyStr "Request timed out after 60 seconds")
             PyNone PyNone PyNone None)
  | RaiseOther exn => raise exn
  end.

(** A keyword argument with a default: [None] when the caller leaves it out. *)
Definition kwarg (default : string) (supplied : option string) : string :=
  match supplied with
  | Some v => v
  | None => default
  end.

(** A [str | None] as a value. *)
Definition py_opt_str (o : option string) : pyval :=
  match o with
  | Some s => PyStr s
  | None => PyNone
  end.

(** The dict literal of [send_letter] and the conditional assignment of
    the label that follows it. *)
Definition letter_payload (pdf_b64 name street zip_code city country letter_type : string)
    (label : option string) : list (string * pyval) :=
  let payload :=
    [ ("pdf", PyStr pdf_b64);
      ("recipient", PyDict [ ("name", PyStr name);
                             ("street", PyStr street);
                             ("zip", PyStr zip_code);
                             ("city", PyStr city);
                             ("country", PyStr country) ]);
      ("type", PyStr letter_type) ] in
  if truthy (py_opt_str label)
  then dict_set "label" (py_opt_str label) payload
  else payload.

Definition send_letter (self : AgenticLettersClient)
    (pdf_path name street zip_code city : string)
    (country letter_type : option string) (label : option string) : M pyval :=
  let country := kwarg "DE" country in
  let letter_type := kwarg "standard" letter_type in
  path_exists <- Path_exists pdf_path ;;
  if negb path_exists then
    die_local ("File not found: " ++ pdf_path) PyNone
  else
    path_is_file <- Path_is_file pdf_path ;;
    if negb path_is_file then
      die_local ("Not a file: " ++ pdf_path) PyNone
    else
      match fs_read_bytes pdf_path with
      | ReadPermissionError => die_local ("Permission denied: " ++ pdf_path) PyNone
      | ReadOSError str_e => die_local ("Cannot read file: " ++ pdf_path) (PyStr str_e)
      | ReadOk pdf_bytes =>
          encoded <- b64encode pdf_bytes ;;
          let pdf_b64 := decode encoded in
          let payload :=
            letter_payload pdf_b64 name street zip_code city country letter_type label in
          _request self "POST" "/letters" (PyDict payload)
      end.

Definition get_letter (self : AgenticLettersClient) (letter_id : string) : M pyval :=
  _request self "GET" ("/letters/" ++ letter_id) PyNone.

Definition list_letters (self : AgenticLettersClient) : M pyval :=
  _request self "GET" "/letters" PyNone.

Definition get_credits (self : AgenticLettersClient) : M pyval :=
  _request self "GET" "/credits" PyNone.

(** ** API key resolution *)

Definition double_quote : ascii := "034"%char.
Definition single_quote : ascii := "039"%char.

(** The three [strip] calls applied to the text after the equals sign:
    white space, then double quotes, then single quotes. *)
Definition unquote (raw : string) : string :=
  strip_char single_quote (strip_char double_quote (strip raw)).

(** One turn of the loop over the lines of the secrets file: [Some val]
    when the loop returns [val] at this line, [None] when it goes on. *)
Definition key_in_line (line : string) : M (option string) :=
  let line := strip line in
  if startswith line (ENV_VAR ++ "=") then
    match nth_error (split1 "=" line) 1 with
    | Some raw =>
        let val := unquote raw in
        if negb (val =? "") then ret (Some val) else ret None
    | None => raise IndexError
    end
  else ret None.

Fixpoint scan_lines (lines : list string) : M (option string) :=
  match lines with
  | [] => ret None
  | line :: rest =>
      r <- key_in_line line ;;
      match r with
      | Some val => ret (Some val)
      | None => scan_lines rest
      end
  end.

Definition no_key_detail : string :=
  "Set " ++ ENV_VAR ++ " in environment or in " ++ ENV_FILE ++
  ". Get a key at https://agentic-letters.com/buy".

(** [load_api_key] after the test of the environment variable: the
    secrets file, then [die_local]. *)
Definition key_from_file : M string :=
  found <- (path_exists <- Path_exists ENV_FILE ;;
            if path_exists then
              match fs_read_text ENV_FILE with
              | TextOk text => scan_lines (splitlines text)
              | TextRaises exn => raise exn
              end
            else ret None) ;;
  match found with
  | Some val => ret val
  | None => die_local "No API key found" (PyStr no_key_detail)
  end.

Definition load_api_key : M string :=
  match os_environ ENV_VAR with
  | Some key => if truthy (PyStr key) then ret (strip key) else key_from_file
  | None => key_from_file
  end.

(** ** CLI *)

(** What the user typed, for the four subcommands of [build_parser]; an
    option is [None] when it is not on the command line.  Command lines that
    argparse itself rejects are not part of the model. *)
Record SendOptions : Type := mkSendOptions {
  opt_pdf : string;
  opt_name : string;
  opt_street : string;
  opt_zip : string;
  opt_city : string;
  opt_country : option string;
  opt_type : option string;
  opt_label : option string
}.

Inductive CommandLine : Type :=
| CmdSend (o : SendOptions)
| CmdStatus (id : string)
| CmdList
| CmdCredits.

(** The namespace [parser.parse_args()] returns. *)
Inductive Namespace : Type :=
| NsSend (pdf name street zip city country letter_type : string) (label : option string)
| NsStatus (id : string)
| NsList
| NsCredits.

(** [build_parser().parse_args()]: the defaults of [--country] and [--type]. *)
Definition parse_args (cl : CommandLine) : Namespace :=
  match cl with
  | CmdSend o =>
      NsSend (opt_pdf o) (opt_name o) (opt_street o) (opt_zip o) (opt_city o)
             (kwarg "DE" (opt_country o)) (kwarg "standard" (opt_type o)) (opt_label o)
  | CmdStatus id => NsStatus id
  | CmdList => NsList
  | CmdCredits => NsCredits
  end.

(** The call of the client that [main] selects from [args.command].  The
    last [else] of [main] is never reached: the subcommand is required and
    argparse accepts these four only. *)
Definition dispatch (client : AgenticLettersClient) (args : Namespace) : M pyval :=
  match args with
  | NsSend pdf name street zip city country letter_type label =>
      send_letter client pdf name street zip city (Some country) (Some letter_type) label
  | NsStatus id => get_letter client id
  | NsList => list_letters client
  | NsCredits => get_credits client
  end.

Definition main (cl : CommandLine) : M unit :=
  let args := parse_args cl in
  api_key <- load_api_key ;;
  let client := mkClient api_key in
  result <- dispatch client args ;;
  print (json_dumps_indent2 result).

End Program.

(* ------------------------------------------------------------------ *)
(** * Sample surroundings, to run the program on concrete inputs       *)
(* ------------------------------------------------------------------ *)

(** Stand-ins for the library: the theorems hold whatever these functions
    are, the runs below only need some. *)
Definition sample_lib : PyLib :=
  mkPyLib (fun _ => "<repr>") (fun _ => "<json>") (fun _ => "<json>")
          "/home/ada/.openclaw/secrets/agentic_letters.env".

Definition fresh_world : World := mkWorld "" "" [] [].

Definition sample_client : AgenticLettersClient := mkClient "sk-test".

Definition sample_pdf : list byte := list_byte_of_string "%PDF-1.4".

(** A terminal that takes every text. *)
Definition any_text : string -> option PyExn := fun _ => None.

(** A machine with the key in the environment, a letter at
    [/tmp/letter.pdf], a directory [/tmp], a file [/root/secret.pdf] that
    cannot be read, a file [/mnt/gone.pdf] on a failing disk, a directory
    [/srv/private] that may not be searched, and a server that answers
    every call with [reply]. *)
Definition sample_entry (p : string) : Entry :=
  if p =? "/tmp"
       then Special (ReadOSError "[Errno 21] Is a directory")
                    (TextRaises (OtherExn "IsADirectoryError"))
  else if p =? "/tmp/letter.pdf"
       then File (ReadOk sample_pdf) (TextRaises (OtherExn "UnicodeDecodeError"))
  else if p =? "/root/secret.pdf"
       then File ReadPermissionError (TextRaises (OtherExn "PermissionError"))
  else if p =? "/mnt/gone.pdf"
       then File (ReadOSError "[Errno 5] Input/output error") (TextRaises (OtherExn "OSError"))
  else if p =? "/srv/private/letter.pdf"
       then NoAccess (OtherExn "PermissionError")
  else NoEntry.

Definition sample_env (reply : UrlOutcome) : Env :=
  mkEnv
    (fun name => if name =? ENV_VAR then Some "sk-test" else None)
    sample_entry
    any_text
    (fun _ _ => reply).

(** A terminal whose encoding is ASCII, and a library whose
    [json.dumps(result, indent=2, ensure_ascii=False)] is a text with the
    letter u-umlaut (code point 252), left as it is by [ensure_ascii=False]. *)
Definition is_ascii (s : string) : bool :=
  forallb (fun c => (N_of_ascii c <? 128)%N) (list_ascii_of_string s).

Definition ascii_only : string -> option PyExn :=
  fun s => if is_ascii s then None else Some (OtherExn "UnicodeEncodeError").

Definition ascii_terminal_env (reply : UrlOutcome) : Env :=
  mkEnv
    (fun name => if name =? ENV_VAR then Some "sk-test" else None)
    sample_entry
    ascii_only
    (fun _ _ => reply).

Definition umlaut_text : string := "M" ++ String "252" "nchen".

Definition umlaut_lib : PyLib :=
  mkPyLib (fun _ => "<repr>") (fun _ => "<json>") (fun _ => umlaut_text)
          "/home/ada/.openclaw/secrets/agentic_letters.env".

Definition invalid_zip_body : pyval :=
  PyDict [("error", PyStr "invalid zip"); ("field", PyStr "zip")].

(** Error bodies that parse as JSON: one without the key [error], and one
    that is not an object. *)
Definition field_only_body : pyval := PyDict [("field", PyStr "zip")].

Definition array_body : pyval := PyList [].

(** A machine without documents, whose environment variable is
    [env_value] and whose secrets file holds [secrets] ([None]: there is no
    such file); no server answers. *)
Definition secrets_env (env_value : option string) (secrets : option string) : Env :=
  mkEnv
    (fun name => if name =? ENV_VAR then env_value else None)
    (fun p => if p =? ENV_FILE (PyLib := sample_lib)
              then match secrets with
                   | Some text => File (ReadOk (encode text)) (TextOk text)
                   | None => NoEntry
                   end
              else NoEntry)
    any_text
    (fun _ _ => RaiseURLError "[Errno 111] Connection refused").

Definition secrets_text : string :=
  "# AgenticLetters" ++ newline ++
  "AGENTIC_LETTERS_API_KEY='sk-from-file'" ++ newline.

(** Error bodies that parse as JSON to [null], and to an object whose
    [error] is [null]. *)
Definition null_body : pyval := PyNone.

Definition null_error_body : pyval := PyDict [("error", PyNone); ("code", PyStr "E42")].

(** A machine whose secrets file is there and cannot be read, the
    environment variable being [env_value]. *)
Definition locked_secrets_env (env_value : option string) : Env :=
  mkEnv
    (fun name => if name =? ENV_VAR then env_value else None)
    (fun p => if p =? ENV_FILE (PyLib := sample_lib)
              then File ReadPermissionError (TextRaises (OtherExn "PermissionError"))
              else NoEntry)
    any_text
    (fun _ _ => RaiseURLError "[Errno 111] Connection refused").

(* ------------------------------------------------------------------ *)
(** * Notions used in the statements                                    *)
(* ------------------------------------------------------------------ *)

Section Notions.

Context {lib : PyLib} {env : Env}.

(** The world after [_request] has sent [req] and died with [err]. *)
Definition after_failed_request (req : Request) (err : CLIError) (w : World) : World :=
  add_stderr (format err ++ newline) (add_request req 60 w).

(** The optional lines of a rendered error. *)
Definition field_line (name : string) (v : pyval) : list string :=
  if truthy v then ["  " ++ name ++ ": " ++ py_str v] else [].

Definition status_line (s : option Z) : list string :=
  match s with
  | Some n => if (n =? 0)%Z then [] else ["  http_status: " ++ str_int n]
  | None => []
  end.

(** A Local error has a text as message, at most a text as detail, and
    none of the three other fields. *)
Definition local_shape (err : CLIError) : Prop :=
  origin err = LOCAL ->
  code err = PyNone /\ field err = PyNone /\ http_status err = None
  /\ (exists m, message err = PyStr m)
  /\ (detail err = PyNone \/ exists d, detail err = PyStr d).

(** [code], [field] and [http_status] are set on Server errors only. *)
Definition server_only_fields (err : CLIError) : Prop :=
  code err <> PyNone \/ field err <> PyNone \/ http_status err <> None ->
  origin err = SERVER.

Definition error_shape (err : CLIError) : Prop :=
  local_shape err /\ server_only_fields err.

(** What every part of the program guarantees: it never writes to standard
    output, it writes to standard error only in [die], once, and the error
    it dies with has the shape above. *)
Definition orderly {A : Type} (m : M A) : Prop :=
  forall (w w' : World) (o : Outcome A),
    m w = (o, w') ->
    stdout w' = stdout w
    /\ match o with
       | Die err => stderr w' = stderr w ++ format err ++ newline /\ error_shape err
       | Ret _ | Uncaught _ => stderr w' = stderr w
       end.

(** [sub] occurs in [s]. *)
Definition contains (s sub : string) : Prop :=
  exists pre post, s = pre ++ sub ++ post.

(** The environment variable gives no key: it is unset, or set to the
    empty string. *)
Definition env_var_empty : Prop :=
  os_environ ENV_VAR = None \/ os_environ ENV_VAR = Some "".

(** [line] of the secrets file reads [VAR=raw] once the white space around
    it is removed, and [raw] without its quotes is the non-empty [val]. *)
Definition sets_key (line val : string) : Prop :=
  exists raw,
    strip line = ENV_VAR ++ "=" ++ raw /\ unquote raw = val /\ val <> "".

(** A character that no [strip] of [unquote] removes. *)
Definition kept (c : ascii) : Prop :=
  isspace c = false /\ Ascii.eqb double_quote c = false
  /\ Ascii.eqb single_quote c = false.

(** A value that begins and ends with such a character. *)
Definition plain (v : string) : Prop :=
  exists a m z m',
    v = String a m /\ v = m' ++ String z "" /\ kept a /\ kept z.

Definition quoted (q : ascii) (v : string) : string :=
  String q (v ++ String q "").

(** The reading of the precedence rule that takes every value of the
    variable, the empty one included, as the key. *)
Definition env_var_always_wins : Prop :=
  forall value w,
    os_environ ENV_VAR = Some value -> load_api_key w = (Ret (strip value), w).

(** The member [k] of a parsed body, when the body is an object that has
    one. *)
Definition json_member (v : pyval) (k : string) : option pyval :=
  match v with
  | PyDict kvs => dict_lookup k kvs
  | PyNone | PyBool _ | PyInt _ | PyFloat _ | PyStr _ | PyList _ => None
  end.

(** The reading of the rule for JSON error bodies that takes every body
    that parses, and makes [message] the member [error] of the body. *)
Definition message_is_error_member : Prop :=
  forall self method path body status reason v w,
    net_reply (build_request self method path body) 60
      = RaiseHTTPError status reason (Some v) ->
    exists err w',
      _request self method path body w = (Die err, w')
      /\ origin err = SERVER
      /\ http_status err = Some status
      /\ json_member v "error" = Some (message err).

(** Every character of [s] is in the set [p]; [blank]: [s] is made of
    white space only. *)
Fixpoint all_chars (p : ascii -> bool) (s : string) : bool :=
  match s with
  | EmptyString => true
  | String c s' => p c && all_chars p s'
  end.

Definition blank (s : string) : bool := all_chars isspace s.

(** The document a [send] needs is a regular file that can be read; the
    other commands need none. *)
Definition document_ready (cl : CommandLine) : Prop :=
  forall o, cl = CmdSend o ->
            exists content, fs_state (opt_pdf o) = RegularFile
                            /\ fs_read_bytes (opt_pdf o) = ReadOk content.

(** The error of [load_api_key]. *)
Definition no_key_error : CLIError :=
  mkCLIError LOCAL (PyStr "No API key found") PyNone (PyStr no_key_detail) PyNone None.

End Notions.

(* ------------------------------------------------------------------ *)
(** * Properties                                                        *)
(* ------------------------------------------------------------------ *)

(** ** Facts about the string methods *)

Module StrFacts.

Lemma append_assoc (a b c : string) : (a ++ b) ++ c = a ++ b ++ c.
Proof. induction a as [|x a IH]; cbn; [reflexivity | rewrite IH; reflexivity]. Qed.

Lemma prefix_inv (p s : string) : prefix p s = true -> exists r, s = p ++ r.
Proof.
  revert s. induction p as [|a p IH]; intros s H.
  - exists s. reflexivity.
  - destruct s as [|b s]; cbn in H; [discriminate H|].
    destruct (ascii_dec a b) as [<- | _]; [|discriminate H].
    destruct (IH s H) as [r ->]. exists r. reflexivity.
Qed.

Lemma prefix_app (p r : string) : prefix p (p ++ r) = true.
Proof.
  induction p as [|a p IH]; cbn; [destruct r; reflexivity|].
  destruct (ascii_dec a a) as [_ | Hne]; [exact IH | contradiction Hne; reflexivity].
Qed.

Lemma lstrip_with_kept (p : ascii -> bool) (a : ascii) (m : string) :
  p a = false -> lstrip_with p (String a m) = String a m.
Proof. intros H. cbn. rewrite H. reflexivity. Qed.

Lemma lstrip_with_dropped (p : ascii -> bool) (a : ascii) (m : string) :
  p a = true -> lstrip_with p (String a m) = lstrip_with p m.
Proof. intros H. cbn. rewrite H. reflexivity. Qed.

Lemma rstrip_with_kept (p : ascii -> bool) (m : string) (z : ascii) :
  p z = false -> rstrip_with p (m ++ String z "") = m ++ String z "".
Proof.
  intros H. induction m as [|c m IH].
  - cbn. rewrite H. reflexivity.
  - cbn [append rstrip_with]. rewrite IH.
    destruct m; reflexivity.
Qed.

Lemma rstrip_with_dropped (p : ascii -> bool) (m : string) (z : ascii) :
  p z = true -> rstrip_with p (m ++ String z "") = rstrip_with p m.
Proof.
  intros H. induction m as [|c m IH].
  - cbn. rewrite H. reflexivity.
  - cbn [append rstrip_with]. rewrite IH. reflexivity.
Qed.

(** A text that begins and ends with characters outside the set is left
    alone by [strip]. *)
Lemma strip_with_edges (p : ascii -> bool) (a z : ascii) (m m' : string) :
  String a m = m' ++ String z "" -> p a = false -> p z = false ->
  strip_with p (String a m) = String a m.
Proof.
  intros Heq Ha Hz. unfold strip_with.
  rewrite Heq at 1. rewrite (rstrip_with_kept p m' z Hz), <- Heq.
  apply lstrip_with_kept, Ha.
Qed.

(** A text between two characters of the set loses exactly these two when
    its own ends are outside the set. *)
Lemma strip_with_quoted (p : ascii -> bool) (q a z : ascii) (m m' : string) :
  String a m = m' ++ String z "" -> p q = true -> p a = false -> p z = false ->
  strip_with p (String q (String a m ++ String q "")) = String a m.
Proof.
  intros Heq Hq Ha Hz. unfold strip_with.
  change (String q (String a m ++ String q ""))
    with ((String q (String a m)) ++ String q "").
  rewrite (rstrip_with_dropped p _ q Hq).
  rewrite Heq.
  change (String q (m' ++ String z "")) with ((String q m') ++ String z "").
  rewrite (rstrip_with_kept p _ z Hz).
  cbn [append]. rewrite <- Heq.
  rewrite (lstrip_with_dropped p q _ Hq). apply lstrip_with_kept, Ha.
Qed.

End StrFacts.

(** Unfolds the plumbing of [M]. *)
Ltac run_m :=
  cbv [bind ret raise urlopen die die_local print_stderr print sys_exit_1
       b64encode py_get _request].

Section Verification.

Context {lib : PyLib} {env : Env}.

(** ** How the primitives run *)

Lemma die_run (A : Type) (err : CLIError) (w : World) :
  die (A := A) err w = (Die err, add_stderr (format err ++ newline) w).
Proof. reflexivity. Qed.

Lemma bind_run (A B : Type) (m : M A) (k : A -> M B) (w w1 : World) (a : A) :
  m w = (Ret a, w1) -> bind m k w = k a w1.
Proof. intros H. unfold bind. rewrite H. reflexivity. Qed.

(** The three views of a path agree: what has a text is there, and a path
    that [stat] cannot look up cannot be opened either. *)
Lemma fs_read_text_there (p text : string) :
  fs_read_text p = TextOk text -> fs_state p = NotRegular \/ fs_state p = RegularFile.
Proof.
  unfold fs_read_text, fs_state. destruct (fs_entry p); intros H; try discriminate H;
    [left | right]; reflexivity.
Qed.

Lemma fs_stat_fails_read_text (p : string) (exn : PyExn) :
  fs_state p = StatFails exn -> fs_read_text p = TextRaises exn.
Proof.
  unfold fs_read_text, fs_state. destruct (fs_entry p); intros H; try discriminate H.
  injection H as <-. reflexivity.
Qed.

(** [exists()] and [is_file()] leave the world alone. *)
Lemma Path_exists_world (p : string) (w w' : World) (o : Outcome bool) :
  Path_exists p w = (o, w') -> w' = w.
Proof.
  unfold Path_exists. destruct (fs_state p); intros H; injection H as _ <-; reflexivity.
Qed.

Lemma Path_is_file_world (p : string) (w w' : World) (o : Outcome bool) :
  Path_is_file p w = (o, w') -> w' = w.
Proof.
  unfold Path_is_file. destruct (fs_state p); intros H; injection H as _ <-; reflexivity.
Qed.

(** [_request] performs exactly one network call, with a timeout of 60
    seconds, whatever the server answers. *)
Lemma request_logs_one_call
    (self : AgenticLettersClient) (method path : string) (body : pyval) (w : World) :
  requests (snd (_request self method path body w))
    = (requests w ++ [(build_request self method path body, 60%Z)])%list.
Proof.
  run_m.
  destruct (net_reply (build_request self method path body) 60)
    as [[v|] | status reason [[]|] | reason | | exn]; reflexivity.
Qed.

(** X8: an HTTP error whose body parses to something else than a dict:
    the first [.get] raises AttributeError, nothing catches it, and no
    error is rendered. *)
Lemma request_http_error_not_a_dict
    (self : AgenticLettersClient) (method path : string) (body : pyval)
    (status : Z) (reason : string) (v : pyval) (w : World) :
  net_reply (build_request self method path body) 60
    = RaiseHTTPError status reason (Some v) ->
  (forall kvs, v <> PyDict kvs) ->
  _request self method path body w
    = (Uncaught AttributeError, add_request (build_request self method path body) 60 w).
Proof.
  intros Hreply Hnot. run_m. rewrite Hreply.
  destruct v; try reflexivity. exfalso. exact (Hnot kvs eq_refl).
Qed.

(** A dict body: the four [.get] calls. *)
Lemma request_http_error_dict
    (self : AgenticLettersClient) (method path : string) (body : pyval)
    (status : Z) (reason : string) (kvs : list (string * pyval)) (w : World) :
  net_reply (build_request self method path body) 60
    = RaiseHTTPError status reason (Some (PyDict kvs)) ->
  let err := mkCLIError SERVER
               (dict_get "error" (PyStr ("HTTP " ++ str_int status)) kvs)
               (dict_get "code" PyNone kvs)
               (dict_get "detail" PyNone kvs)
               (dict_get "field" PyNone kvs)
               (Some status) in
  _request self method path body w
    = (Die err, after_failed_request (build_request self method path body) err w).
Proof.
  intros Hreply. run_m. rewrite Hreply. reflexivity.
Qed.

(** ** The error responses of the server *)

(** C2, as the code has it: an HTTP error whose body parses to a JSON object
    that has an [error] key is a Server error: [message] is the value of that key,
    [http_status] the status of the response, and [code], [detail] and
    [field] are what [.get] finds under these keys, [None] for a key the
    body does not have. *)
Theorem request_http_error_json
    (self : AgenticLettersClient) (method path : string) (body : pyval)
    (status : Z) (reason : string) (kvs : list (string * pyval)) (msg : pyval)
    (w : World) :
  net_reply (build_request self method path body) 60
    = RaiseHTTPError status reason (Some (PyDict kvs)) ->
  dict_lookup "error" kvs = Some msg ->
  exists err,
    _request self method path body w
      = (Die err, after_failed_request (build_request self method path body) err w)
    /\ origin err = SERVER
    /\ message err = msg
    /\ http_status err = Some status
    /\ code err = dict_get "code" PyNone kvs
    /\ detail err = dict_get "detail" PyNone kvs
    /\ field err = dict_get "field" PyNone kvs.
Proof.
  intros Hreply Hmsg.
  eexists. split; [exact (request_http_error_dict self method path body status reason kvs w Hreply)|].
  cbn. unfold dict_get at 1. rewrite Hmsg. repeat split.
Qed.

(** C4: an HTTP error whose body does not parse as JSON is a Server error
    with the status of the response in [http_status] and the reason phrase
    as [detail], no [code] and no [field]. *)
Theorem request_http_error_non_json
    (self : AgenticLettersClient) (method path : string) (body : pyval)
    (status : Z) (reason : string) (w : World) :
  net_reply (build_request self method path body) 60 = RaiseHTTPError status reason None ->
  exists err,
    _request self method path body w
      = (Die err, after_failed_request (build_request self method path body) err w)
    /\ origin err = SERVER
    /\ http_status err = Some status
    /\ detail err = PyStr reason
    /\ code err = PyNone
    /\ field err = PyNone
    /\ message err = PyStr ("HTTP " ++ str_int status ++ " with non-JSON response").
Proof.
  intros Hreply. run_m. rewrite Hreply.
  eexists. split; [reflexivity|]. cbn. repeat split.
Qed.

(** X19: the two handlers of network failures.  A URLError is a Network
    error without [http_status], with the message of an unreachable host
    and [str(e.reason)] as detail, whatever the reason is; a TimeoutError
    is a Network error without [http_status] whose message says that the
    request timed out after 60 seconds, and 60 seconds is the timeout of
    the call. *)
Theorem request_network_failure
    (self : AgenticLettersClient) (method path : string) (body : pyval)
    (reply : UrlOutcome) (w : World) :
  net_reply (build_request self method path body) 60 = reply ->
  reply = RaiseTimeoutError \/ (exists reason, reply = RaiseURLError reason) ->
  exists err,
    _request self method path body w
      = (Die err, after_failed_request (build_request self method path body) err w)
    /\ origin err = NETWORK
    /\ http_status err = None
    /\ code err = PyNone
    /\ field err = PyNone
    /\ (reply = RaiseTimeoutError ->
          message err = PyStr "Request timed out after 60 seconds" /\ detail err = PyNone)
    /\ (forall reason, reply = RaiseURLError reason ->
          message err = PyStr "Could not reach the API" /\ detail err = PyStr reason).
Proof.
  intros Hreply [Htimeout | [reason Hurl]]; subst reply.
  - run_m. rewrite Htimeout. eexists. split; [reflexivity|]. cbn.
    split; [reflexivity|]. split; [reflexivity|]. split; [reflexivity|].
    split; [reflexivity|]. split.
    + intros _. split; reflexivity.
    + intros r Hr. discriminate Hr.
  - run_m. rewrite Hurl. eexists. split; [reflexivity|]. cbn.
    split; [reflexivity|]. split; [reflexivity|]. split; [reflexivity|].
    split; [reflexivity|]. split.
    + intros Hr. discriminate Hr.
    + intros r Hr. injection Hr as <-. split; reflexivity.
Qed.

(** ** Sending a letter *)

(** With a document that can be read, [send_letter] encodes it and hands
    the payload to [_request]. *)
Lemma send_letter_readable_run
    (self : AgenticLettersClient) (pdf_path name street zip_code city : string)
    (country letter_type label : option string) (content : list byte) (w : World) :
  fs_state pdf_path = RegularFile ->
  fs_read_bytes pdf_path = ReadOk content ->
  send_letter self pdf_path name street zip_code city country letter_type label w
    = _request self "POST" "/letters"
        (PyDict (letter_payload (decode (Base64.b64encode content)) name street zip_code
                                city (kwarg "DE" country) (kwarg "standard" letter_type)
                                label))
        (add_b64_input content w).
Proof.
  intros Hstate Hread. unfold send_letter, Path_exists, Path_is_file, bind.
  rewrite Hstate, Hread. reflexivity.
Qed.

(** When [stat] raises on the path of the document, the exception leaves
    [send_letter] as it came: nothing is written and no error is made. *)
Lemma send_letter_stat_fails
    (self : AgenticLettersClient) (pdf_path name street zip_code city : string)
    (country letter_type label : option string) (exn : PyExn) (w : World) :
  fs_state pdf_path = StatFails exn ->
  send_letter self pdf_path name street zip_code city country letter_type label w
    = (Uncaught exn, w).
Proof.
  intros Hstate. unfold send_letter, Path_exists, bind. rewrite Hstate. reflexivity.
Qed.

Lemma letter_payload_items
    (pdf_b64 name street zip_code city country letter_type : string)
    (label : option string) :
  letter_payload pdf_b64 name street zip_code city country letter_type label
    = ([ ("pdf", PyStr pdf_b64);
         ("recipient", PyDict [ ("name", PyStr name);
                                ("street", PyStr street);
                                ("zip", PyStr zip_code);
                                ("city", PyStr city);
                                ("country", PyStr country) ]);
         ("type", PyStr letter_type) ]
       ++ match label with
          | Some l => if (l =? "")%string then [] else [("label", PyStr l)]
          | None => []
          end)%list.
Proof.
  unfold letter_payload. destruct label as [l|]; cbn; [|reflexivity].
  destruct (l =? "")%string; reflexivity.
Qed.

(** X18: when [stat] answers for the path of the document, and the
    document does not exist, is not a regular file or cannot be read,
    [send_letter] dies with a Local error; nothing has been base64-encoded
    and no network call has been made; and the message says which of the
    four preconditions failed, the four messages being different from one
    another. *)
Theorem send_letter_unusable_document
    (self : AgenticLettersClient) (pdf_path name street zip_code city : string)
    (country letter_type label : option string) (w : World) :
  (forall exn, fs_state pdf_path <> StatFails exn) ->
  (forall content,
      ~ (fs_state pdf_path = RegularFile /\ fs_read_bytes pdf_path = ReadOk content)) ->
  exists err w',
    send_letter self pdf_path name street zip_code city country letter_type label w
      = (Die err, w')
    /\ origin err = LOCAL
    /\ code err = PyNone
    /\ field err = PyNone
    /\ http_status err = None
    /\ requests w' = requests w
    /\ b64_inputs w' = b64_inputs w
    /\ stdout w' = stdout w
    /\ stderr w' = stderr w ++ format err ++ newline
    /\ (fs_state pdf_path = Absent ->
          message err = PyStr ("File not found: " ++ pdf_path) /\ detail err = PyNone)
    /\ (fs_state pdf_path = NotRegular ->
          message err = PyStr ("Not a file: " ++ pdf_path) /\ detail err = PyNone)
    /\ (fs_state pdf_path = RegularFile ->
          fs_read_bytes pdf_path = ReadPermissionError ->
          message err = PyStr ("Permission denied: " ++ pdf_path) /\ detail err = PyNone)
    /\ (forall str_e,
          fs_state pdf_path = RegularFile ->
          fs_read_bytes pdf_path = ReadOSError str_e ->
          message err = PyStr ("Cannot read file: " ++ pdf_path)
          /\ detail err = PyStr str_e)
    /\ NoDup [ "File not found: " ++ pdf_path; "Not a file: " ++ pdf_path;
               "Permission denied: " ++ pdf_path; "Cannot read file: " ++ pdf_path ].
Proof.
  intros Hstat Hunusable.
  assert (Hdistinct :
            NoDup [ "File not found: " ++ pdf_path; "Not a file: " ++ pdf_path;
                    "Permission denied: " ++ pdf_path; "Cannot read file: " ++ pdf_path ]).
  { repeat constructor; cbn; intros Hin;
      repeat (destruct Hin as [Hin | Hin]; [discriminate Hin|]); exact Hin. }
  unfold send_letter, Path_exists, Path_is_file, bind.
  destruct (fs_state pdf_path) as [ | | | exn] eqn:Hstate; cbn;
    [ | | | exfalso; exact (Hstat exn eq_refl)].
  - do 2 eexists. split; [reflexivity|]. cbn.
    repeat (split; [first [reflexivity | intros; (discriminate || (split; reflexivity))]|]).
    exact Hdistinct.
  - do 2 eexists. split; [reflexivity|]. cbn.
    repeat (split; [first [reflexivity | intros; (discriminate || (split; reflexivity))]|]).
    exact Hdistinct.
  - destruct (fs_read_bytes pdf_path) as [content | | str_e] eqn:Hread.
    + exfalso. apply (Hunusable content). split; reflexivity.
    + do 2 eexists. split; [reflexivity|]. cbn.
      repeat (split; [first [reflexivity | intros; (discriminate || (split; reflexivity))]|]).
      exact Hdistinct.
    + do 2 eexists. split; [reflexivity|]. cbn.
      do 8 (split; [reflexivity|]).
      split; [intros H; discriminate H|]. split; [intros H; discriminate H|].
      split; [intros _ H; discriminate H|].
      split; [|exact Hdistinct].
      intros e _ He. injection He as <-. split; reflexivity.
Qed.

(** C5: when the document can be read, the one request [send_letter]
    makes is a POST to [/letters] whose body is the JSON text of
    [{pdf, recipient: {name, street, zip, city, country}, type}], followed
    by [label] when a non-empty one is given; [pdf] is the base64 text of
    the bytes of the document, and [country] and [type] are [DE] and
    [standard] when the caller leaves them out. *)
Theorem send_letter_request_body
    (self : AgenticLettersClient) (pdf_path name street zip_code city : string)
    (country letter_type label : option string) (content : list byte) (w : World) :
  fs_state pdf_path = RegularFile ->
  fs_read_bytes pdf_path = ReadOk content ->
  let payload :=
    PyDict ([ ("pdf", PyStr (decode (Base64.b64encode content)));
              ("recipient",
               PyDict [ ("name", PyStr name);
                        ("street", PyStr street);
                        ("zip", PyStr zip_code);
                        ("city", PyStr city);
                        ("country", PyStr match country with
                                          | Some c => c
                                          | None => "DE"
                                          end) ]);
              ("type", PyStr match letter_type with
                             | Some t => t
                             | None => "standard"
                             end) ]
            ++ match label with
               | Some l => if (l =? "")%string then [] else [("label", PyStr l)]
               | None => []
               end)%list in
  let w' := snd (send_letter self pdf_path name street zip_code city
                             country letter_type label w) in
  requests w'
    = (requests w
       ++ [(mkRequest "https://agentic-letters.com/api/letters"
                      (Some (encode (json_dumps payload)))
                      (_headers self) "POST", 60%Z)])%list
  /\ b64_inputs w' = (b64_inputs w ++ [content])%list.
Proof.
  intros Hstate Hread payload w'. subst w' payload.
  rewrite (send_letter_readable_run _ _ _ _ _ _ _ _ _ _ _ Hstate Hread).
  rewrite request_logs_one_call, letter_payload_items. split.
  - reflexivity.
  - run_m.
    match goal with
    | |- context [net_reply ?r 60] =>
        destruct (net_reply r 60) as [[v|] | status reason [[]|] | reason | | exn]
    end; reflexivity.
Qed.

(** C6: the payload [send_letter] passes on has the key [label] exactly
    when a non-empty label is given; with [label=None] the key never
    appears. *)
Theorem send_letter_label_key
    (self : AgenticLettersClient) (pdf_path name street zip_code city : string)
    (country letter_type label : option string) (content : list byte) (w : World) :
  fs_state pdf_path = RegularFile ->
  fs_read_bytes pdf_path = ReadOk content ->
  let payload :=
    letter_payload (decode (Base64.b64encode content)) name street zip_code city
                   (kwarg "DE" country) (kwarg "standard" letter_type) label in
  send_letter self pdf_path name street zip_code city country letter_type label w
    = _request self "POST" "/letters" (PyDict payload) (add_b64_input content w)
  /\ data (build_request self "POST" "/letters" (PyDict payload))
      = Some (encode (json_dumps (PyDict payload)))
  /\ (In "label" (dict_keys payload) <-> exists l, label = Some l /\ l <> "")
  /\ (label = None -> ~ In "label" (dict_keys payload))
  /\ (forall l, label = Some l -> l <> "" -> dict_lookup "label" payload = Some (PyStr l)).
Proof.
  intros Hstate Hread payload. subst payload.
  split; [exact (send_letter_readable_run _ _ _ _ _ _ _ _ _ _ _ Hstate Hread)|].
  rewrite letter_payload_items.
  split; [reflexivity|].
  destruct label as [l|]; cbn.
  - destruct (String.eqb_spec l "") as [-> | Hne]; cbn.
    + split; [|split].
      * split.
        -- intros [H|[H|[H|[]]]]; discriminate H.
        -- intros (l' & Hl' & Hne'). injection Hl' as <-. contradiction.
      * intros H; discriminate H.
      * intros l' Hl' Hne'. injection Hl' as <-. contradiction.
    + split; [|split].
      * split.
        -- intros _. exists l. split; [reflexivity | exact Hne].
        -- intros _. right. right. right. left. reflexivity.
      * intros H; discriminate H.
      * intros l' Hl' _. injection Hl' as <-. reflexivity.
  - split; [|split].
    + split.
      * intros [H|[H|[H|[]]]]; discriminate H.
      * intros (l' & Hl' & _). discriminate Hl'.
    + intros _ [H|[H|[H|[]]]]; discriminate H.
    + intros l' Hl'. discriminate Hl'.
Qed.

(** ** What every run guarantees *)

Lemma orderly_ret (A : Type) (a : A) : orderly (ret a).
Proof. intros w w' o H. injection H as <- <-. split; reflexivity. Qed.

Lemma orderly_raise (A : Type) (exn : PyExn) : orderly (raise (A := A) exn).
Proof. intros w w' o H. injection H as <- <-. split; reflexivity. Qed.

Lemma orderly_die (A : Type) (err : CLIError) :
  error_shape err -> orderly (die (A := A) err).
Proof.
  intros Hshape w w' o H. rewrite die_run in H. injection H as <- <-.
  split; [reflexivity|]. split; [reflexivity | exact Hshape].
Qed.

Lemma orderly_bind (A B : Type) (m : M A) (k : A -> M B) :
  orderly m -> (forall a, orderly (k a)) -> orderly (bind m k).
Proof.
  intros Hm Hk w w' o H. unfold bind in H.
  destruct (m w) as [[a | err | exn] w1] eqn:Hmw.
  - destruct (Hm _ _ _ Hmw) as [Hout Herr]. cbn in Herr.
    destruct (Hk a _ _ _ H) as [Hout' Herr'].
    rewrite Hout in Hout'. rewrite Herr in Herr'. split; assumption.
  - injection H as <- <-. exact (Hm _ _ _ Hmw).
  - injection H as <- <-. exact (Hm _ _ _ Hmw).
Qed.

Lemma orderly_urlopen (req : Request) (timeout : Z) : orderly (urlopen req timeout).
Proof. intros w w' o H. injection H as <- <-. split; reflexivity. Qed.

Lemma orderly_b64encode (b : list byte) : orderly (b64encode b).
Proof. intros w w' o H. injection H as <- <-. split; reflexivity. Qed.

Lemma orderly_py_get (d : pyval) (k : string) (default : pyval) :
  orderly (py_get d k default).
Proof.
  destruct d; first [apply orderly_raise | apply orderly_ret].
Qed.

Lemma orderly_Path_exists (p : string) : orderly (Path_exists p).
Proof.
  unfold Path_exists. destruct (fs_state p); first [apply orderly_raise | apply orderly_ret].
Qed.

Lemma orderly_Path_is_file (p : string) : orderly (Path_is_file p).
Proof.
  unfold Path_is_file. destruct (fs_state p); first [apply orderly_raise | apply orderly_ret].
Qed.

Lemma local_error_shape (msg : string) (det : pyval) :
  det = PyNone \/ (exists d, det = PyStr d) ->
  error_shape (mkCLIError LOCAL (PyStr msg) PyNone det PyNone None).
Proof.
  intros Hdet. split.
  - intros _. cbn. repeat split; try reflexivity.
    + exists msg. reflexivity.
    + exact Hdet.
  - cbn. intros [H | [H | H]]; contradiction H; reflexivity.
Qed.

Lemma network_error_shape (msg det : pyval) :
  error_shape (mkCLIError NETWORK msg PyNone det PyNone None).
Proof.
  split.
  - intros H. discriminate H.
  - cbn. intros [H | [H | H]]; contradiction H; reflexivity.
Qed.

Lemma server_error_shape (msg cod det fld : pyval) (status : option Z) :
  error_shape (mkCLIError SERVER msg cod det fld status).
Proof.
  split.
  - intros H. discriminate H.
  - intros _. reflexivity.
Qed.

Lemma orderly_die_local (A : Type) (msg : string) (det : pyval) :
  det = PyNone \/ (exists d, det = PyStr d) ->
  orderly (die_local (A := A) msg det).
Proof. intros Hdet. apply orderly_die, local_error_shape, Hdet. Qed.

Create HintDb orderly.

#[local] Hint Resolve orderly_ret orderly_raise orderly_urlopen orderly_b64encode
  orderly_py_get orderly_Path_exists orderly_Path_is_file
  network_error_shape server_error_shape : orderly.

Lemma orderly_request
    (self : AgenticLettersClient) (method path : string) (body : pyval) :
  orderly (_request self method path body).
Proof.
  unfold _request. apply orderly_bind; [auto with orderly|].
  intros [[v|] | status reason [error_body|] | reason | | exn]; auto with orderly.
  - do 4 (apply orderly_bind; [auto with orderly | intros ?]).
    apply orderly_die. auto with orderly.
  - apply orderly_die. auto with orderly.
  - apply orderly_die. auto with orderly.
  - apply orderly_die. auto with orderly.
Qed.

Lemma orderly_send_letter
    (self : AgenticLettersClient) (pdf_path name street zip_code city : string)
    (country letter_type label : option string) :
  orderly (send_letter self pdf_path name street zip_code city country letter_type label).
Proof.
  unfold send_letter.
  apply orderly_bind; [auto with orderly|]. intros path_exists.
  destruct (negb path_exists); [apply orderly_die_local; left; reflexivity|].
  apply orderly_bind; [auto with orderly|]. intros path_is_file.
  destruct (negb path_is_file); [apply orderly_die_local; left; reflexivity|].
  destruct (fs_read_bytes pdf_path) as [content | | str_e].
  - apply orderly_bind; [auto with orderly|]. intros encoded. apply orderly_request.
  - apply orderly_die_local. left. reflexivity.
  - apply orderly_die_local. right. exists str_e. reflexivity.
Qed.

Lemma orderly_key_in_line (line : string) : orderly (key_in_line line).
Proof.
  unfold key_in_line.
  destruct (startswith (strip line) (ENV_VAR ++ "=")); [|auto with orderly].
  destruct (nth_error (split1 "=" (strip line)) 1) as [raw|]; [|auto with orderly].
  destruct (negb (unquote raw =? "")%string); auto with orderly.
Qed.

Lemma orderly_scan_lines (lines : list string) : orderly (scan_lines lines).
Proof.
  induction lines as [|line rest IH]; cbn [scan_lines]; [auto with orderly|].
  apply orderly_bind; [apply orderly_key_in_line|].
  intros [val|]; [auto with orderly | exact IH].
Qed.

Lemma orderly_key_from_file : orderly key_from_file.
Proof.
  unfold key_from_file. apply orderly_bind.
  - apply orderly_bind; [auto with orderly|].
    intros [|]; [|auto with orderly].
    destruct (fs_read_text ENV_FILE) as [text | exn];
      [apply orderly_scan_lines | auto with orderly].
  - intros [val|]; [auto with orderly|].
    apply orderly_die_local. right. eexists. reflexivity.
Qed.

Lemma orderly_load_api_key : orderly load_api_key.
Proof.
  unfold load_api_key.
  destruct (os_environ ENV_VAR) as [key|]; [|apply orderly_key_from_file].
  destruct (truthy (PyStr key)); [auto with orderly | apply orderly_key_from_file].
Qed.

Lemma orderly_dispatch (client : AgenticLettersClient) (args : Namespace) :
  orderly (dispatch client args).
Proof.
  destruct args; cbn [dispatch]; first [apply orderly_send_letter | apply orderly_request].
Qed.

(** [main] dies only in an orderly way: the error is rendered on standard
    error and nothing is printed. *)
Lemma main_dies (cl : CommandLine) (w w' : World) (err : CLIError) :
  main cl w = (Die err, w') ->
  stdout w' = stdout w
  /\ stderr w' = stderr w ++ format err ++ newline
  /\ error_shape err.
Proof.
  intros H. unfold main, bind in H.
  destruct (load_api_key w) as [[key | e | x] w1] eqn:Hkey.
  - destruct (orderly_load_api_key _ _ _ Hkey) as [Hout1 Herr1]. cbn in Herr1.
    destruct (dispatch (mkClient key) (parse_args cl) w1) as [[result | e | x] w2] eqn:Hd.
    + unfold print in H.
      destruct (stdout_error (json_dumps_indent2 result)); discriminate H.
    + injection H as <- <-.
      destruct (orderly_dispatch _ _ _ _ _ Hd) as [Hout2 [Herr2 Hshape]].
      rewrite Hout2, Herr2, Hout1, Herr1.
      split; [reflexivity|]. split; [reflexivity | exact Hshape].
    + discriminate H.
  - injection H as <- <-.
    destruct (orderly_load_api_key _ _ _ Hkey) as [Hout1 [Herr1 Hshape]].
    split; [exact Hout1|]. split; [exact Herr1 | exact Hshape].
  - discriminate H.
Qed.

(** A successful answer of the server is what [_request] returns. *)
Lemma request_success
    (self : AgenticLettersClient) (method path : string) (body v : pyval) (w : World) :
  net_reply (build_request self method path body) 60 = Response (Some v) ->
  _request self method path body w
    = (Ret v, add_request (build_request self method path body) 60 w).
Proof. intros Hreply. run_m. rewrite Hreply. reflexivity. Qed.

(** The API key is resolved without touching the world. *)
Lemma scan_lines_world (lines : list string) (w : World) :
  snd (scan_lines lines w) = w.
Proof.
  induction lines as [|line rest IH]; [reflexivity|].
  cbn [scan_lines]. unfold bind, key_in_line.
  destruct (startswith (strip line) (ENV_VAR ++ "=")); [|exact IH].
  destruct (nth_error (split1 "=" (strip line)) 1) as [raw|]; [|reflexivity].
  destruct (negb (unquote raw =? "")%string); [reflexivity | exact IH].
Qed.

Lemma key_from_file_returns (key : string) (w : World) :
  fst (key_from_file w) = Ret key -> key_from_file w = (Ret key, w).
Proof.
  unfold key_from_file.
  set (m := bind (Path_exists ENV_FILE) _).
  assert (Hm : snd (m w) = w).
  { subst m. unfold bind, Path_exists.
    destruct (fs_state ENV_FILE); try reflexivity;
      (destruct (fs_read_text ENV_FILE); [apply scan_lines_world | reflexivity]). }
  unfold bind.
  destruct (m w) as [[[val|] | e | x] w1]; cbn in Hm; subst w1;
    cbv [die_local die bind print_stderr sys_exit_1 ret fst];
    intros H; try discriminate H.
  injection H as ->. reflexivity.
Qed.

Lemma load_api_key_returns (key : string) (w : World) :
  fst (load_api_key w) = Ret key -> load_api_key w = (Ret key, w).
Proof.
  unfold load_api_key.
  destruct (os_environ ENV_VAR) as [value|]; [|apply key_from_file_returns].
  destruct (truthy (PyStr value)); [|apply key_from_file_returns].
  cbv [ret fst]. intros H. injection H as <-. reflexivity.
Qed.

(** [format] is the header followed by the lines of the fields that are
    set and not empty, in the order code, http_status, detail, field. *)
Lemma format_lines (err : CLIError) :
  format err
    = join newline
        (("[" ++ ErrorOrigin_value (origin err) ++ "] " ++ py_str (message err))%string
           :: field_line "code" (code err) ++ status_line (http_status err)
           ++ field_line "detail" (detail err) ++ field_line "field" (field err))%list.
Proof.
  unfold format, format_parts, field_line, status_line, status_truthy, str_status.
  destruct (truthy (code err)), (http_status err) as [n|];
    [destruct (n =? 0)%Z | | destruct (n =? 0)%Z |];
    destruct (truthy (detail err)), (truthy (field err)); reflexivity.
Qed.

(** When the key is there, the document (for [send]) can be read and the
    server answers with the JSON value [v], the selected call returns [v]. *)
Lemma dispatch_success (key : string) (cl : CommandLine) (v : pyval) (w : World) :
  (forall o, cl = CmdSend o ->
             exists content, fs_state (opt_pdf o) = RegularFile
                             /\ fs_read_bytes (opt_pdf o) = ReadOk content) ->
  (forall req, net_reply req 60 = Response (Some v)) ->
  exists w2, dispatch (mkClient key) (parse_args cl) w = (Ret v, w2).
Proof.
  intros Hdoc Hnet. destruct cl as [o | id | |]; cbn [parse_args dispatch].
  - destruct (Hdoc o eq_refl) as (content & Hstate & Hread).
    rewrite (send_letter_readable_run _ _ _ _ _ _ _ _ _ _ _ Hstate Hread).
    eexists. apply request_success, Hnet.
  - eexists. apply request_success, Hnet.
  - eexists. apply request_success, Hnet.
  - eexists. apply request_success, Hnet.
Qed.

(** The last line of [main]: with a result in hand, what happens depends
    on the stream alone. *)
Lemma main_prints (cl : CommandLine) (key : string) (v : pyval) (w w2 : World) :
  load_api_key w = (Ret key, w) ->
  dispatch (mkClient key) (parse_args cl) w = (Ret v, w2) ->
  main cl w = print (json_dumps_indent2 v) w2.
Proof.
  intros Hkey Hcall. unfold main.
  rewrite (bind_run _ _ _ _ _ _ _ Hkey). rewrite (bind_run _ _ _ _ _ _ _ Hcall).
  reflexivity.
Qed.

Lemma ErrorOrigin_tag (o : ErrorOrigin) :
  In (o, ErrorOrigin_value o) [(LOCAL, "local"); (SERVER, "server"); (NETWORK, "network")].
Proof. destruct o; cbn; auto. Qed.

(** X20: for the four commands, when the call succeeds and standard output
    takes the text, [main] prints the JSON value the server answered, as
    [json.dumps] writes it, and the exit status is 0; when [main] dies with
    a classified error the exit status is 1, nothing is printed to standard
    output, and standard error receives [[local]], [[server]] or
    [[network]], by the origin of the error, and its message, followed by
    the indented lines of code, http_status, detail and field: a line for
    each that is set and not empty, none for one that is absent. *)
Theorem main_exit_status_and_output (cl : CommandLine) (w : World) :
  (forall key v,
      fst (load_api_key w) = Ret key ->
      (forall o, cl = CmdSend o ->
                 exists content, fs_state (opt_pdf o) = RegularFile
                                 /\ fs_read_bytes (opt_pdf o) = ReadOk content) ->
      (forall req, net_reply req 60 = Response (Some v)) ->
      stdout_error (json_dumps_indent2 v) = None ->
      exists w',
        main cl w = (Ret tt, w')
        /\ exit_status (fst (main cl w)) = 0%Z
        /\ stdout w' = stdout w ++ json_dumps_indent2 v ++ newline
        /\ stderr w' = stderr w)
  /\ (forall err w',
        main cl w = (Die err, w') ->
        exit_status (fst (main cl w)) = 1%Z
        /\ stdout w' = stdout w
        /\ stderr w' = stderr w ++ format err ++ newline
        /\ (exists tag,
              In (origin err, tag)
                 [(LOCAL, "local"); (SERVER, "server"); (NETWORK, "network")]
              /\ format err
                 = join newline
                     (("[" ++ tag ++ "] " ++ py_str (message err))%string
                        :: field_line "code" (code err) ++ status_line (http_status err)
                        ++ field_line "detail" (detail err)
                        ++ field_line "field" (field err))%list)
        /\ (forall name, field_line name PyNone = [])
        /\ status_line None = []).
Proof.
  split.
  - intros key v Hkey Hdoc Hnet Hstream.
    apply load_api_key_returns in Hkey.
    destruct (dispatch_success key cl v w Hdoc Hnet) as [w2 Hcall].
    destruct (orderly_dispatch _ _ _ _ _ Hcall) as [Hout Herr]. cbn in Herr.
    assert (Hmain : main cl w = (Ret tt, add_stdout (json_dumps_indent2 v ++ newline) w2)).
    { rewrite (main_prints _ _ _ _ _ Hkey Hcall). unfold print. rewrite Hstream.
      reflexivity. }
    eexists. split; [exact Hmain|]. rewrite Hmain. cbn.
    rewrite Hout, Herr. repeat split.
  - intros err w' Hmain.
    destruct (main_dies _ _ _ _ Hmain) as (Hout & Herr & _).
    rewrite Hmain. cbn [fst exit_status].
    split; [reflexivity|]. split; [exact Hout|]. split; [exact Herr|].
    split; [|split; reflexivity].
    exists (ErrorOrigin_value (origin err)).
    split; [apply ErrorOrigin_tag | apply format_lines].
Qed.

(** X21: when the call succeeded and standard output raises on the text
    of the result, the exception reaches the top level: the exit status is
    1 although the server has carried out the request, and nothing is
    written to standard output or to standard error. *)
Theorem main_print_raises (cl : CommandLine) (key : string) (v : pyval) (exn : PyExn)
    (w : World) :
  fst (load_api_key w) = Ret key ->
  (forall o, cl = CmdSend o ->
             exists content, fs_state (opt_pdf o) = RegularFile
                             /\ fs_read_bytes (opt_pdf o) = ReadOk content) ->
  (forall req, net_reply req 60 = Response (Some v)) ->
  stdout_error (json_dumps_indent2 v) = Some exn ->
  exists w',
    main cl w = (Uncaught exn, w')
    /\ exit_status (fst (main cl w)) = 1%Z
    /\ stdout w' = stdout w
    /\ stderr w' = stderr w
    /\ List.length (requests w') = S (List.length (requests w)).
Proof.
  intros Hkey Hdoc Hnet Hstream.
  apply load_api_key_returns in Hkey.
  destruct (dispatch_success key cl v w Hdoc Hnet) as [w2 Hcall].
  destruct (orderly_dispatch _ _ _ _ _ Hcall) as [Hout Herr]. cbn in Herr.
  assert (Hmain : main cl w = (Uncaught exn, w2)).
  { rewrite (main_prints _ _ _ _ _ Hkey Hcall). unfold print. rewrite Hstream.
    reflexivity. }
  exists w2. rewrite Hmain. cbn [fst exit_status].
  split; [reflexivity|]. split; [reflexivity|]. split; [exact Hout|].
  split; [exact Herr|].
  destruct cl as [o | id | |]; cbn [parse_args dispatch] in Hcall.
  - destruct (Hdoc o eq_refl) as (content & Hstate & Hread).
    rewrite (send_letter_readable_run _ _ _ _ _ _ _ _ _ _ _ Hstate Hread) in Hcall.
    pose proof (request_logs_one_call (mkClient key) "POST" "/letters"
                  (PyDict (letter_payload (decode (Base64.b64encode content))
                             (opt_name o) (opt_street o) (opt_zip o) (opt_city o)
                             (kwarg "DE" (Some (kwarg "DE" (opt_country o))))
                             (kwarg "standard" (Some (kwarg "standard" (opt_type o))))
                             (opt_label o)))
                  (add_b64_input content w)) as Hlog.
    rewrite Hcall in Hlog. cbn [snd] in Hlog. rewrite Hlog.
    rewrite List.length_app. cbn. rewrite Nat.add_1_r. reflexivity.
  - pose proof (request_logs_one_call (mkClient key) "GET" ("/letters/" ++ id) PyNone w)
      as Hlog.
    unfold get_letter in Hcall. rewrite Hcall in Hlog. cbn [snd] in Hlog. rewrite Hlog.
    rewrite List.length_app. cbn. rewrite Nat.add_1_r. reflexivity.
  - pose proof (request_logs_one_call (mkClient key) "GET" "/letters" PyNone w) as Hlog.
    unfold list_letters in Hcall. rewrite Hcall in Hlog. cbn [snd] in Hlog. rewrite Hlog.
    rewrite List.length_app. cbn. rewrite Nat.add_1_r. reflexivity.
  - pose proof (request_logs_one_call (mkClient key) "GET" "/credits" PyNone w) as Hlog.
    unfold get_credits in Hcall. rewrite Hcall in Hlog. cbn [snd] in Hlog. rewrite Hlog.
    rewrite List.length_app. cbn. rewrite Nat.add_1_r. reflexivity.
Qed.

(** X22: when [stat] raises on the path of the document, the exception
    reaches the top level of a [send]: no error is rendered, nothing is
    encoded and no request is made. *)
Theorem main_document_stat_raises (o : SendOptions) (key : string) (exn : PyExn)
    (w : World) :
  fst (load_api_key w) = Ret key ->
  fs_state (opt_pdf o) = StatFails exn ->
  main (CmdSend o) w = (Uncaught exn, w).
Proof.
  intros Hkey Hstate. apply load_api_key_returns in Hkey.
  unfold main. rewrite (bind_run _ _ _ _ _ _ _ Hkey).
  cbn [parse_args dispatch]. unfold bind at 1.
  rewrite (send_letter_stat_fails _ _ _ _ _ _ _ _ _ _ _ Hstate). reflexivity.
Qed.

(** C9: an error [main] dies with that has origin Local carries no code,
    no field and no http_status: it has a message and at most a free-text
    detail; and an error that carries one of the three has origin Server. *)
Theorem main_error_shape (cl : CommandLine) (w w' : World) (err : CLIError) :
  main cl w = (Die err, w') ->
  (origin err = LOCAL ->
     code err = PyNone /\ field err = PyNone /\ http_status err = None
     /\ (exists m, message err = PyStr m)
     /\ (detail err = PyNone \/ exists d, detail err = PyStr d))
  /\ (code err <> PyNone \/ field err <> PyNone \/ http_status err <> None ->
      origin err = SERVER).
Proof.
  intros Hmain. destruct (main_dies _ _ _ _ Hmain) as (_ & _ & Hshape). exact Hshape.
Qed.

(** X6: for the [send] command, when the key resolves and the document can
    be read, [main] makes one request, the POST of the payload, in which
    the defaults of [--country] and [--type] stand in for options that are
    not on the command line. *)
Lemma main_send_request
    (o : SendOptions) (key : string) (content : list byte) (w : World) :
  fst (load_api_key w) = Ret key ->
  fs_state (opt_pdf o) = RegularFile ->
  fs_read_bytes (opt_pdf o) = ReadOk content ->
  requests (snd (main (CmdSend o) w))
    = (requests w
       ++ [(build_request (mkClient key) "POST" "/letters"
              (PyDict (letter_payload (decode (Base64.b64encode content))
                         (opt_name o) (opt_street o) (opt_zip o) (opt_city o)
                         (match opt_country o with Some c => c | None => "DE" end)
                         (match opt_type o with Some t => t | None => "standard" end)
                         (opt_label o))),
            60%Z)])%list.
Proof.
  intros Hkey Hstate Hread. apply load_api_key_returns in Hkey.
  unfold main. rewrite (bind_run _ _ _ _ _ _ _ Hkey).
  cbn [parse_args dispatch]. unfold bind at 1.
  rewrite (send_letter_readable_run _ _ _ _ _ _ _ _ _ _ _ Hstate Hread).
  match goal with
  | |- context [_request ?c ?m ?p ?b ?w0] =>
      pose proof (request_logs_one_call c m p b w0) as Hlog;
      destruct (_request c m p b w0) as [[result | e | x] w2]
  end; cbn in Hlog |- *;
    [unfold print; destruct (stdout_error (json_dumps_indent2 result)); cbn | |];
    rewrite Hlog; reflexivity.
Qed.

(** ** Resolving the API key *)

Lemma key_line_startswith (raw : string) :
  startswith (ENV_VAR ++ "=" ++ raw) (ENV_VAR ++ "=") = true.
Proof. exact (StrFacts.prefix_app (ENV_VAR ++ "=") raw). Qed.

Lemma key_line_split (raw : string) :
  nth_error (split1 "=" (ENV_VAR ++ "=" ++ raw)) 1 = Some raw.
Proof. reflexivity. Qed.

Lemma key_in_line_found (line val : string) (w : World) :
  sets_key line val -> key_in_line line w = (Ret (Some val), w).
Proof.
  intros (raw & Hstrip & Hval & Hne). unfold key_in_line.
  rewrite Hstrip, key_line_startswith, key_line_split, Hval.
  destruct (String.eqb_spec val ""); [contradiction | reflexivity].
Qed.

Lemma key_in_line_skipped (line : string) (w : World) :
  (forall val, ~ sets_key line val) -> key_in_line line w = (Ret None, w).
Proof.
  intros Hno. unfold key_in_line.
  destruct (startswith (strip line) (ENV_VAR ++ "=")) eqn:Hprefix; [|reflexivity].
  apply StrFacts.prefix_inv in Hprefix. destruct Hprefix as [raw Hraw].
  assert (Hstrip : strip line = ENV_VAR ++ "=" ++ raw).
  { rewrite Hraw. apply StrFacts.append_assoc. }
  rewrite Hstrip, key_line_split.
  destruct (String.eqb_spec (unquote raw) "") as [Hempty | Hne]; [reflexivity|].
  exfalso. apply (Hno (unquote raw)). exists raw. repeat split; assumption.
Qed.

Lemma scan_lines_found (before after : list string) (line val : string) (w : World) :
  (forall l v, In l before -> ~ sets_key l v) ->
  sets_key line val ->
  scan_lines (before ++ line :: after) w = (Ret (Some val), w).
Proof.
  intros Hbefore Hline. induction before as [|l before IH]; cbn [app scan_lines].
  - unfold bind. rewrite (key_in_line_found _ _ _ Hline). reflexivity.
  - unfold bind. rewrite key_in_line_skipped.
    + apply IH. intros l' v Hin. apply Hbefore. right. exact Hin.
    + intros v. apply Hbefore. left. reflexivity.
Qed.

Lemma scan_lines_nothing (lines : list string) (w : World) :
  (forall l v, In l lines -> ~ sets_key l v) ->
  scan_lines lines w = (Ret None, w).
Proof.
  intros Hno. induction lines as [|l lines IH]; cbn [scan_lines]; [reflexivity|].
  unfold bind. rewrite key_in_line_skipped.
  - apply IH. intros l' v Hin. apply Hno. right. exact Hin.
  - intros v. apply Hno. left. reflexivity.
Qed.

Lemma load_api_key_without_env_var :
  env_var_empty -> load_api_key = key_from_file.
Proof. unfold load_api_key. intros [H | H]; rewrite H; reflexivity. Qed.

Lemma unquote_plain (v : string) :
  plain v ->
  unquote v = v /\ unquote (quoted double_quote v) = v
  /\ unquote (quoted single_quote v) = v.
Proof.
  intros (a & m & z & m' & Hhead & Hlast & (Ha1 & Ha2 & Ha3) & (Hz1 & Hz2 & Hz3)).
  assert (Heq : String a m = m' ++ String z "") by (rewrite <- Hhead; exact Hlast).
  assert (Hsq : strip_char single_quote (String a m) = String a m).
  { exact (StrFacts.strip_with_edges _ a z m m' Heq Ha3 Hz3). }
  subst v. unfold unquote, strip, strip_char, quoted. repeat split.
  - rewrite (StrFacts.strip_with_edges isspace a z m m' Heq Ha1 Hz1).
    rewrite (StrFacts.strip_with_edges _ a z m m' Heq Ha2 Hz2).
    exact Hsq.
  - rewrite (StrFacts.strip_with_edges isspace double_quote double_quote
               (String a m ++ String double_quote "") (String double_quote (String a m))
               eq_refl eq_refl eq_refl).
    rewrite (StrFacts.strip_with_quoted _ double_quote a z m m' Heq eq_refl Ha2 Hz2).
    exact Hsq.
  - rewrite (StrFacts.strip_with_edges isspace single_quote single_quote
               (String a m ++ String single_quote "") (String single_quote (String a m))
               eq_refl eq_refl eq_refl).
    rewrite (StrFacts.strip_with_edges _ single_quote single_quote
               (String a m ++ String single_quote "") (String single_quote (String a m))
               eq_refl eq_refl eq_refl).
    exact (StrFacts.strip_with_quoted _ single_quote a z m m' Heq eq_refl Ha3 Hz3).
Qed.

(** A line [VAR=raw] whose last character is not white space sets the key
    to [unquote raw]. *)
Lemma sets_key_line (raw val : string) (z : ascii) (m' : string) :
  raw = m' ++ String z "" -> isspace z = false ->
  unquote raw = val -> val <> "" ->
  sets_key (ENV_VAR ++ "=" ++ raw) val.
Proof.
  intros Hlast Hz Hval Hne. exists raw. split; [|split; assumption].
  subst raw. unfold strip.
  exact (StrFacts.strip_with_edges isspace "A" z _ ("AGENTIC_LETTERS_API_KEY=" ++ m')
           eq_refl eq_refl Hz).
Qed.

(** C8, as the code has it: a non-empty value of the environment variable
    is the key (without the white space around it), whatever the secrets
    file holds; when the variable is unset or empty, the key is the value of
    the first line [VAR=value] of the secrets file whose value is not empty,
    the value being written plainly or between double or single quotes;
    and when the variable is unset or empty and the secrets file is missing
    or has no such line, the program dies with a Local error whose detail
    names the variable, the path of the secrets file and the signup URL. *)
Theorem load_api_key_resolution (w : World) :
  (forall value,
      os_environ ENV_VAR = Some value -> value <> "" ->
      load_api_key w = (Ret (strip value), w))
  /\ (forall text before line after val,
        env_var_empty ->
        fs_state ENV_FILE <> Absent ->
        fs_read_text ENV_FILE = TextOk text ->
        splitlines text = (before ++ line :: after)%list ->
        (forall l v, In l before -> ~ sets_key l v) ->
        sets_key line val ->
        load_api_key w = (Ret val, w))
  /\ (forall v,
        plain v ->
        sets_key (ENV_VAR ++ "=" ++ v) v
        /\ sets_key (ENV_VAR ++ "=" ++ quoted double_quote v) v
        /\ sets_key (ENV_VAR ++ "=" ++ quoted single_quote v) v)
  /\ (env_var_empty ->
      fs_state ENV_FILE = Absent
      \/ (exists text,
            fs_read_text ENV_FILE = TextOk text
            /\ forall l v, In l (splitlines text) -> ~ sets_key l v) ->
      exists err d,
        load_api_key w = (Die err, add_stderr (format err ++ newline) w)
        /\ origin err = LOCAL
        /\ message err = PyStr "No API key found"
        /\ detail err = PyStr d
        /\ contains d ENV_VAR
        /\ contains d ENV_FILE
        /\ contains d "https://agentic-letters.com/buy").
Proof.
  split; [|split; [|split]].
  - intros value Henv Hne. unfold load_api_key. rewrite Henv. cbn.
    destruct (String.eqb_spec value ""); [contradiction | reflexivity].
  - intros text before line after val Hempty Hstate Hread Hsplit Hbefore Hline.
    rewrite (load_api_key_without_env_var Hempty).
    unfold key_from_file, bind, Path_exists.
    destruct (fs_read_text_there _ _ Hread) as [-> | ->]; cbv beta iota delta [ret];
      rewrite Hread, Hsplit, (scan_lines_found _ _ _ _ _ Hbefore Hline); reflexivity.
  - intros v Hplain.
    destruct (unquote_plain v Hplain) as (Hu1 & Hu2 & Hu3).
    destruct Hplain as (a & m & z & m' & Hhead & Hlast & Ha & (Hz & _ & _)).
    assert (Hne : v <> "") by (rewrite Hhead; discriminate).
    split; [|split].
    + exact (sets_key_line v v z m' Hlast Hz Hu1 Hne).
    + exact (sets_key_line (quoted double_quote v) v double_quote
               (String double_quote v) eq_refl eq_refl Hu2 Hne).
    + exact (sets_key_line (quoted single_quote v) v single_quote
               (String single_quote v) eq_refl eq_refl Hu3 Hne).
  - intros Hempty Hfile.
    exists (mkCLIError LOCAL (PyStr "No API key found") PyNone (PyStr no_key_detail)
                       PyNone None), no_key_detail.
    split.
    + rewrite (load_api_key_without_env_var Hempty).
      unfold key_from_file, bind, Path_exists.
      destruct Hfile as [Habsent | (text & Hread & Hnone)].
      * rewrite Habsent. reflexivity.
      * destruct (fs_read_text_there _ _ Hread) as [-> | ->]; cbv beta iota delta [ret];
          rewrite Hread, (scan_lines_nothing _ _ Hnone); reflexivity.
    + split; [reflexivity|]. split; [reflexivity|]. split; [reflexivity|].
      unfold contains, no_key_detail. split; [|split].
      * exists "Set ", (" in environment or in " ++ ENV_FILE
                        ++ ". Get a key at https://agentic-letters.com/buy").
        reflexivity.
      * exists ("Set " ++ ENV_VAR ++ " in environment or in "),
               ". Get a key at https://agentic-letters.com/buy".
        reflexivity.
      * exists ("Set " ++ ENV_VAR ++ " in environment or in " ++ ENV_FILE
                ++ ". Get a key at "), "".
        rewrite !StrFacts.append_assoc. reflexivity.
Qed.

End Verification.

(* ------------------------------------------------------------------ *)
(** * The properties on the sample machines                             *)
(* ------------------------------------------------------------------ *)

(** C1 fails at a document in a directory that may not be searched:
    [path.exists()] raises PermissionError, outside of any [try]; no Local
    error is made and the program itself writes nothing.  A file that
    itself may not be read gets the Local error of the handler around
    [read_bytes]. *)
Lemma send_letter_unsearchable_directory_uncaught :
  send_letter (lib := sample_lib) (env := sample_env RaiseTimeoutError)
              sample_client "/root/secret.pdf" "Ada" "Main St 1" "10115" "Berlin"
              None None None fresh_world
    = (Die (mkCLIError LOCAL (PyStr "Permission denied: /root/secret.pdf") PyNone PyNone
                       PyNone None),
       mkWorld "" ("[local] Permission denied: /root/secret.pdf" ++ newline) [] [])
  /\ fs_state (env := sample_env RaiseTimeoutError) "/srv/private/letter.pdf"
     = StatFails (OtherExn "PermissionError")
  /\ send_letter (lib := sample_lib) (env := sample_env RaiseTimeoutError)
                 sample_client "/srv/private/letter.pdf" "Ada" "Main St 1" "10115" "Berlin"
                 None None None fresh_world
     = (Uncaught (OtherExn "PermissionError"), fresh_world)
  /\ main (lib := sample_lib) (env := sample_env RaiseTimeoutError)
          (CmdSend (mkSendOptions "/srv/private/letter.pdf" "Ada" "Main St 1" "10115"
                                  "Berlin" None None None))
          fresh_world
     = (Uncaught (OtherExn "PermissionError"), fresh_world).
Proof. repeat split. Qed.

(** X18 at the directory [/tmp]. *)
Lemma send_letter_unusable_document_witness :
  exists err w',
    send_letter (lib := sample_lib) (env := sample_env RaiseTimeoutError)
                sample_client "/tmp" "Ada" "Main St 1" "10115" "Berlin"
                None None None fresh_world
      = (Die err, w')
    /\ origin err = LOCAL
    /\ message err = PyStr "Not a file: /tmp"
    /\ requests w' = []
    /\ b64_inputs w' = []
    /\ stderr w' = "[local] Not a file: /tmp" ++ newline.
Proof.
  destruct (send_letter_unusable_document
              (lib := sample_lib) (env := sample_env RaiseTimeoutError)
              sample_client "/tmp" "Ada" "Main St 1" "10115" "Berlin"
              None None None fresh_world)
    as (err & w' & Hrun & Horigin & Hcode & Hfield & Hstatus & Hreq & Hb64 & _ & Herr
        & _ & Hdir & _).
  { intros exn Hstate. discriminate Hstate. }
  { intros content [Hstate _]. discriminate Hstate. }
  destruct (Hdir eq_refl) as [Hmsg Hdetail].
  exists err, w'. rewrite Herr, Hreq, Hb64.
  destruct err; cbn in *; subst. repeat split. exact Hrun.
Defined.

(** C2 at the HTTP 422 of the specification. *)
Lemma request_http_error_json_witness :
  exists err,
    _request (lib := sample_lib)
             (env := sample_env (RaiseHTTPError 422 "Unprocessable Entity"
                                                (Some invalid_zip_body)))
             sample_client "POST" "/letters" PyNone fresh_world
      = (Die err,
         mkWorld ""
                 ("[server] invalid zip" ++ newline ++
                  "  http_status: 422" ++ newline ++
                  "  field: zip" ++ newline)
                 [(mkRequest "https://agentic-letters.com/api/letters" None
                             (_headers sample_client) "POST", 60%Z)]
                 [])
    /\ origin err = SERVER
    /\ message err = PyStr "invalid zip"
    /\ http_status err = Some 422%Z
    /\ field err = PyStr "zip"
    /\ code err = PyNone
    /\ detail err = PyNone.
Proof.
  destruct (request_http_error_json
              (lib := sample_lib)
              (env := sample_env (RaiseHTTPError 422 "Unprocessable Entity"
                                                 (Some invalid_zip_body)))
              sample_client "POST" "/letters" PyNone 422 "Unprocessable Entity"
              [("error", PyStr "invalid zip"); ("field", PyStr "zip")]
              (PyStr "invalid zip") fresh_world eq_refl eq_refl)
    as (err & Hrun & Ho & Hm & Hs & Hc & Hd & Hf).
  exists err. rewrite Hrun. destruct err; cbn in *; subst.
  repeat split.
Defined.

(** C2 as the specification words it fails on a body without [error]: the
    message is the fallback text, which is no member of the body. *)
Lemma request_http_error_json_counterexample :
  json_member field_only_body "error" = None
  /\ (exists w',
        _request (lib := sample_lib)
                 (env := sample_env (RaiseHTTPError 422 "Unprocessable Entity"
                                                    (Some field_only_body)))
                 sample_client "POST" "/letters" PyNone fresh_world
          = (Die (mkCLIError SERVER (PyStr "HTTP 422") PyNone PyNone (PyStr "zip")
                             (Some 422%Z)), w'))
  /\ ~ message_is_error_member
        (lib := sample_lib)
        (env := sample_env (RaiseHTTPError 422 "Unprocessable Entity"
                                           (Some field_only_body))).
Proof.
  split; [reflexivity|]. split; [eexists; reflexivity|].
  intros Hclaim.
  destruct (Hclaim sample_client "POST" "/letters" PyNone 422%Z "Unprocessable Entity"
                   field_only_body fresh_world eq_refl)
    as (err & w' & _ & _ & _ & Hmember).
  discriminate Hmember.
Qed.

(** C3 fails at a server that does not take the connection within the 60
    seconds: urlopen wraps the timeout of the socket in a URLError, the
    handler of URLError takes it, and the message is that of an
    unreachable host; only the detail, [str(e.reason)], says [timed out].
    A timeout that arrives as TimeoutError has the message of the
    timeout. *)
Lemma request_connect_timeout_message :
  _request (lib := sample_lib) (env := sample_env (RaiseURLError "timed out"))
           sample_client "GET" "/credits" PyNone fresh_world
    = (Die (mkCLIError NETWORK (PyStr "Could not reach the API") PyNone
                       (PyStr "timed out") PyNone None),
       mkWorld ""
               ("[network] Could not reach the API" ++ newline
                ++ "  detail: timed out" ++ newline)
               [(mkRequest "https://agentic-letters.com/api/credits" None
                           (_headers sample_client) "GET", 60%Z)]
               [])
  /\ main (lib := sample_lib) (env := sample_env (RaiseURLError "timed out"))
          CmdCredits fresh_world
     = (Die (mkCLIError NETWORK (PyStr "Could not reach the API") PyNone
                        (PyStr "timed out") PyNone None),
        mkWorld ""
                ("[network] Could not reach the API" ++ newline
                 ++ "  detail: timed out" ++ newline)
                [(mkRequest "https://agentic-letters.com/api/credits" None
                            (_headers sample_client) "GET", 60%Z)]
                [])
  /\ PyStr "Could not reach the API" <> PyStr "Request timed out after 60 seconds"
  /\ fst (_request (lib := sample_lib) (env := sample_env RaiseTimeoutError)
                   sample_client "GET" "/credits" PyNone fresh_world)
     = Die (mkCLIError NETWORK (PyStr "Request timed out after 60 seconds") PyNone
                       PyNone PyNone None).
Proof. repeat split. intros H. discriminate H. Qed.

(** X19 at a server that cannot be reached and at one whose answer does
    not come in time. *)
Lemma request_network_failure_witness :
  (exists err w',
      _request (lib := sample_lib)
               (env := sample_env (RaiseURLError "[Errno 111] Connection refused"))
               sample_client "GET" "/credits" PyNone fresh_world
        = (Die err, w')
      /\ origin err = NETWORK /\ http_status err = None
      /\ message err = PyStr "Could not reach the API"
      /\ detail err = PyStr "[Errno 111] Connection refused")
  /\ (exists err w',
        _request (lib := sample_lib) (env := sample_env RaiseTimeoutError)
                 sample_client "GET" "/credits" PyNone fresh_world
          = (Die err, w')
        /\ origin err = NETWORK /\ http_status err = None
        /\ message err = PyStr "Request timed out after 60 seconds"
        /\ map snd (requests w') = [60%Z]).
Proof.
  split.
  - destruct (request_network_failure
                (lib := sample_lib)
                (env := sample_env (RaiseURLError "[Errno 111] Connection refused"))
                sample_client "GET" "/credits" PyNone
                (RaiseURLError "[Errno 111] Connection refused") fresh_world eq_refl
                (or_intror (ex_intro _ "[Errno 111] Connection refused" eq_refl)))
      as (err & Hrun & Ho & Hs & _ & _ & _ & Hurl).
    destruct (Hurl _ eq_refl) as [Hm Hd].
    exists err. eexists. split; [exact Hrun|]. repeat split; assumption.
  - destruct (request_network_failure
                (lib := sample_lib) (env := sample_env RaiseTimeoutError)
                sample_client "GET" "/credits" PyNone RaiseTimeoutError fresh_world
                eq_refl (or_introl eq_refl))
      as (err & Hrun & Ho & Hs & _ & _ & Htimeout & _).
    destruct (Htimeout eq_refl) as [Hm _].
    exists err. eexists. split; [exact Hrun|]. repeat split; assumption.
Defined.

(** C4 at an HTTP 500 whose body is not JSON. *)
Lemma request_http_error_non_json_witness :
  exists err,
    _request (lib := sample_lib)
             (env := sample_env (RaiseHTTPError 500 "Internal Server Error" None))
             sample_client "GET" "/credits" PyNone fresh_world
      = (Die err,
         mkWorld ""
                 ("[server] HTTP 500 with non-JSON response" ++ newline ++
                  "  http_status: 500" ++ newline ++
                  "  detail: Internal Server Error" ++ newline)
                 [(mkRequest "https://agentic-letters.com/api/credits" None
                             (_headers sample_client) "GET", 60%Z)]
                 [])
    /\ origin err = SERVER
    /\ http_status err = Some 500%Z
    /\ detail err = PyStr "Internal Server Error"
    /\ code err = PyNone
    /\ field err = PyNone.
Proof.
  destruct (request_http_error_non_json
              (lib := sample_lib)
              (env := sample_env (RaiseHTTPError 500 "Internal Server Error" None))
              sample_client "GET" "/credits" PyNone 500 "Internal Server Error"
              fresh_world eq_refl)
    as (err & Hrun & Ho & Hs & Hd & Hc & Hf & Hm).
  exists err. rewrite Hrun. destruct err; cbn in *; subst.
  repeat split.
Defined.

(** C5 at the sample letter, with neither country nor type nor label. *)
Lemma send_letter_request_body_witness :
  let w' := snd (send_letter (lib := sample_lib)
                             (env := sample_env (Response (Some (PyDict []))))
                             sample_client "/tmp/letter.pdf" "Ada" "Main St 1" "10115"
                             "Berlin" None None None fresh_world) in
  requests w'
    = [(mkRequest "https://agentic-letters.com/api/letters"
          (Some (encode
             (json_dumps (PyLib := sample_lib)
                (PyDict [ ("pdf", PyStr "JVBERi0xLjQ=");
                          ("recipient", PyDict [ ("name", PyStr "Ada");
                                                 ("street", PyStr "Main St 1");
                                                 ("zip", PyStr "10115");
                                                 ("city", PyStr "Berlin");
                                                 ("country", PyStr "DE") ]);
                          ("type", PyStr "standard") ]))))
          [ ("Authorization", "Bearer sk-test");
            ("Content-Type", "application/json");
            ("User-Agent", "agentic-letters-skill/1.0") ]
          "POST", 60%Z)]
  /\ b64_inputs w' = [sample_pdf].
Proof.
  exact (send_letter_request_body
           (lib := sample_lib) (env := sample_env (Response (Some (PyDict []))))
           sample_client "/tmp/letter.pdf" "Ada" "Main St 1" "10115" "Berlin"
           None None None sample_pdf fresh_world eq_refl eq_refl).
Defined.

(** C6 with a label, and the payload without one. *)
Lemma send_letter_label_key_witness :
  In "label"
     (dict_keys (letter_payload "JVBERi0xLjQ=" "Ada" "Main St 1" "10115" "Berlin"
                                "DE" "standard" (Some "invoice 7")))
  /\ ~ In "label"
       (dict_keys (letter_payload "JVBERi0xLjQ=" "Ada" "Main St 1" "10115" "Berlin"
                                  "DE" "standard" None)).
Proof.
  split.
  - destruct (send_letter_label_key
                (lib := sample_lib) (env := sample_env (Response (Some (PyDict []))))
                sample_client "/tmp/letter.pdf" "Ada" "Main St 1" "10115" "Berlin"
                None None (Some "invoice 7") sample_pdf fresh_world eq_refl eq_refl)
      as (_ & _ & Hiff & _).
    apply Hiff. exists "invoice 7". split; [reflexivity | discriminate].
  - destruct (send_letter_label_key
                (lib := sample_lib) (env := sample_env (Response (Some (PyDict []))))
                sample_client "/tmp/letter.pdf" "Ada" "Main St 1" "10115" "Berlin"
                None None None sample_pdf fresh_world eq_refl eq_refl)
      as (_ & _ & _ & Hnone & _).
    exact (Hnone eq_refl).
Defined.

(** C7 fails at a [send] whose result has a letter outside of ASCII, on a
    terminal whose encoding is ASCII: the letter is posted and the server
    answers, [print] raises UnicodeEncodeError, and the run ends with exit
    status 1 and nothing on standard output. *)
Lemma main_success_print_uncaught :
  let reply := Response (Some (PyDict [("city", PyStr umlaut_text)])) in
  let run := main (lib := umlaut_lib) (env := ascii_terminal_env reply)
                  (CmdSend (mkSendOptions "/tmp/letter.pdf" "Ada" "Main St 1" "10115"
                                          "Berlin" None None None))
                  fresh_world in
  dispatch (lib := umlaut_lib) (env := ascii_terminal_env reply) sample_client
           (NsSend "/tmp/letter.pdf" "Ada" "Main St 1" "10115" "Berlin" "DE" "standard" None)
           fresh_world
    = (Ret (PyDict [("city", PyStr umlaut_text)]), snd run)
  /\ fst run = Uncaught (OtherExn "UnicodeEncodeError")
  /\ exit_status (fst run) = 1%Z
  /\ stdout (snd run) = ""
  /\ stderr (snd run) = ""
  /\ map (fun r => (method (fst r), url (fst r))) (requests (snd run))
     = [("POST", "https://agentic-letters.com/api/letters")].
Proof. repeat split. Qed.

(** X20 at a successful [credits], and at a Local, a Server and a Network
    error. *)
Lemma main_exit_status_and_output_witness :
  (exists w',
      main (lib := sample_lib)
           (env := sample_env (Response (Some (PyDict [("credits", PyInt 3)]))))
           CmdCredits fresh_world = (Ret tt, w')
      /\ exit_status
           (fst (main (lib := sample_lib)
                      (env := sample_env (Response (Some (PyDict [("credits", PyInt 3)]))))
                      CmdCredits fresh_world)) = 0%Z
      /\ stdout w'
         = json_dumps_indent2 (PyLib := sample_lib) (PyDict [("credits", PyInt 3)])
           ++ newline
      /\ stderr w' = "")
  /\ (let run := main (lib := sample_lib) (env := sample_env RaiseTimeoutError)
                      (CmdSend (mkSendOptions "/tmp" "Ada" "Main St 1" "10115" "Berlin"
                                              None None None))
                      fresh_world in
      exit_status (fst run) = 1%Z
      /\ stdout (snd run) = ""
      /\ stderr (snd run) = "[local] Not a file: /tmp" ++ newline)
  /\ (let run := main (lib := sample_lib)
                      (env := sample_env (RaiseHTTPError 422 "Unprocessable Entity"
                                                         (Some invalid_zip_body)))
                      CmdCredits fresh_world in
      exit_status (fst run) = 1%Z
      /\ stdout (snd run) = ""
      /\ stderr (snd run)
         = "[server] invalid zip" ++ newline ++ "  http_status: 422" ++ newline
           ++ "  field: zip" ++ newline)
  /\ (let run := main (lib := sample_lib) (env := sample_env RaiseTimeoutError)
                      CmdCredits fresh_world in
      exit_status (fst run) = 1%Z
      /\ stdout (snd run) = ""
      /\ stderr (snd run) = "[network] Request timed out after 60 seconds" ++ newline).
Proof.
  split; [|split; [|split]].
  - destruct (main_exit_status_and_output
                (lib := sample_lib)
                (env := sample_env (Response (Some (PyDict [("credits", PyInt 3)]))))
                CmdCredits fresh_world) as [Hsuccess _].
    apply (Hsuccess "sk-test" (PyDict [("credits", PyInt 3)])).
    + reflexivity.
    + intros o Ho. discriminate Ho.
    + intros req. reflexivity.
    + reflexivity.
  - destruct (main_exit_status_and_output
                (lib := sample_lib) (env := sample_env RaiseTimeoutError)
                (CmdSend (mkSendOptions "/tmp" "Ada" "Main St 1" "10115" "Berlin"
                                        None None None))
                fresh_world) as [_ Hfailure].
    destruct (Hfailure (mkCLIError LOCAL (PyStr "Not a file: /tmp") PyNone PyNone PyNone
                                   None)
                       _ eq_refl)
      as (Hexit & Hout & Herr & _).
    cbv zeta. split; [exact Hexit|]. split; [exact Hout | exact Herr].
  - destruct (main_exit_status_and_output
                (lib := sample_lib)
                (env := sample_env (RaiseHTTPError 422 "Unprocessable Entity"
                                                   (Some invalid_zip_body)))
                CmdCredits fresh_world) as [_ Hfailure].
    destruct (Hfailure (mkCLIError SERVER (PyStr "invalid zip") PyNone PyNone (PyStr "zip")
                                   (Some 422%Z))
                       _ eq_refl)
      as (Hexit & Hout & Herr & _).
    cbv zeta. split; [exact Hexit|]. split; [exact Hout | exact Herr].
  - destruct (main_exit_status_and_output
                (lib := sample_lib) (env := sample_env RaiseTimeoutError)
                CmdCredits fresh_world) as [_ Hfailure].
    destruct (Hfailure (mkCLIError NETWORK (PyStr "Request timed out after 60 seconds")
                                   PyNone PyNone PyNone None)
                       _ eq_refl)
      as (Hexit & Hout & Herr & _).
    cbv zeta. split; [exact Hexit|]. split; [exact Hout | exact Herr].
Defined.

(** X21 at a [send] whose result has a letter outside of ASCII, on a
    terminal whose encoding is ASCII. *)
Lemma main_print_raises_witness :
  exists w',
    main (lib := umlaut_lib)
         (env := ascii_terminal_env (Response (Some (PyDict [("city", PyStr umlaut_text)]))))
         (CmdSend (mkSendOptions "/tmp/letter.pdf" "Ada" "Main St 1" "10115" "Berlin"
                                 None None None))
         fresh_world
      = (Uncaught (OtherExn "UnicodeEncodeError"), w')
    /\ stdout w' = ""
    /\ stderr w' = ""
    /\ List.length (requests w') = 1.
Proof.
  destruct (main_print_raises
              (lib := umlaut_lib)
              (env := ascii_terminal_env
                        (Response (Some (PyDict [("city", PyStr umlaut_text)]))))
              (CmdSend (mkSendOptions "/tmp/letter.pdf" "Ada" "Main St 1" "10115" "Berlin"
                                      None None None))
              "sk-test" (PyDict [("city", PyStr umlaut_text)])
              (OtherExn "UnicodeEncodeError") fresh_world)
    as (w' & Hrun & _ & Hout & Herr & Hreq).
  - reflexivity.
  - intros o Ho. injection Ho as <-. exists sample_pdf. split; reflexivity.
  - intros req. reflexivity.
  - reflexivity.
  - exists w'. split; [exact Hrun|]. split; [exact Hout|]. split; [exact Herr | exact Hreq].
Defined.

(** X22 at a document in a directory that may not be searched. *)
Lemma main_document_stat_raises_witness :
  main (lib := sample_lib) (env := sample_env RaiseTimeoutError)
       (CmdSend (mkSendOptions "/srv/private/letter.pdf" "Ada" "Main St 1" "10115" "Berlin"
                               None None None))
       fresh_world
    = (Uncaught (OtherExn "PermissionError"), fresh_world).
Proof.
  exact (main_document_stat_raises
           (lib := sample_lib) (env := sample_env RaiseTimeoutError)
           (mkSendOptions "/srv/private/letter.pdf" "Ada" "Main St 1" "10115" "Berlin"
                          None None None)
           "sk-test" (OtherExn "PermissionError") fresh_world eq_refl eq_refl).
Defined.

(** C9 at a [send] of a directory. *)
Lemma main_error_shape_witness :
  exists err w',
    main (lib := sample_lib) (env := sample_env RaiseTimeoutError)
         (CmdSend (mkSendOptions "/tmp" "Ada" "Main St 1" "10115" "Berlin"
                                 None None None))
         fresh_world = (Die err, w')
    /\ origin err = LOCAL
    /\ code err = PyNone /\ field err = PyNone /\ http_status err = None.
Proof.
  exists (mkCLIError LOCAL (PyStr "Not a file: /tmp") PyNone PyNone PyNone None).
  eexists. split; [vm_compute; reflexivity|].
  split; [reflexivity|].
  destruct (main_error_shape
              (lib := sample_lib) (env := sample_env RaiseTimeoutError)
              (CmdSend (mkSendOptions "/tmp" "Ada" "Main St 1" "10115" "Berlin"
                                      None None None))
              fresh_world _ _ eq_refl) as [Hlocal _].
  destruct (Hlocal eq_refl) as (Hc & Hf & Hs & _).
  split; [exact Hc|]. split; [exact Hf | exact Hs].
Defined.

(** C10 fails at an HTTP 500 whose body is the JSON array [[]]: the body
    parses and has no key [error], and [list] has no method [get]; the
    AttributeError is not caught, so no Server error is made and the
    program itself writes nothing to standard error. *)
Lemma request_http_error_json_array_uncaught :
  json_member array_body "error" = None
  /\ _request (lib := sample_lib)
              (env := sample_env (RaiseHTTPError 500 "Internal Server Error"
                                                 (Some array_body)))
              sample_client "GET" "/letters" PyNone fresh_world
     = (Uncaught AttributeError,
        mkWorld "" ""
                [(mkRequest "https://agentic-letters.com/api/letters" None
                            (_headers sample_client) "GET", 60%Z)]
                [])
  /\ main (lib := sample_lib)
          (env := sample_env (RaiseHTTPError 500 "Internal Server Error"
                                             (Some array_body)))
          CmdList fresh_world
     = (Uncaught AttributeError,
        mkWorld "" ""
                [(mkRequest "https://agentic-letters.com/api/letters" None
                            (_headers sample_client) "GET", 60%Z)]
                []).
Proof. repeat split. Qed.

(** C8 as the specification words it fails when the variable is set to
    the empty string: the secrets file decides.  With a key in the file
    that key is the credential, and without the file the program dies. *)
Lemma load_api_key_env_var_counterexample :
  os_environ (Env := secrets_env (Some "") (Some secrets_text)) ENV_VAR = Some ""
  /\ load_api_key (lib := sample_lib) (env := secrets_env (Some "") (Some secrets_text))
                  fresh_world
     = (Ret "sk-from-file", fresh_world)
  /\ fst (load_api_key (lib := sample_lib) (env := secrets_env (Some "") None)
                       fresh_world)
     = Die (mkCLIError LOCAL (PyStr "No API key found") PyNone
                       (PyStr (no_key_detail (lib := sample_lib))) PyNone None)
  /\ ~ env_var_always_wins (lib := sample_lib)
                           (env := secrets_env (Some "") (Some secrets_text)).
Proof.
  split; [reflexivity|]. split; [vm_compute; reflexivity|].
  split; [vm_compute; reflexivity|].
  intros Hclaim. specialize (Hclaim "" fresh_world eq_refl).
  vm_compute in Hclaim. discriminate Hclaim.
Qed.

(** C8, as the code has it, on three machines: the variable holds a key;
    only the secrets file holds one, between single quotes; neither does. *)
Lemma load_api_key_resolution_witness :
  load_api_key (lib := sample_lib)
               (env := secrets_env (Some " sk-env ") (Some secrets_text)) fresh_world
    = (Ret "sk-env", fresh_world)
  /\ load_api_key (lib := sample_lib) (env := secrets_env None (Some secrets_text))
                  fresh_world
     = (Ret "sk-from-file", fresh_world)
  /\ (exists err d,
        load_api_key (lib := sample_lib) (env := secrets_env (Some "") None) fresh_world
          = (Die err,
             add_stderr (format (lib := sample_lib) err ++ newline) fresh_world)
        /\ origin err = LOCAL
        /\ message err = PyStr "No API key found"
        /\ detail err = PyStr d
        /\ contains d "AGENTIC_LETTERS_API_KEY"
        /\ contains d "/home/ada/.openclaw/secrets/agentic_letters.env"
        /\ contains d "https://agentic-letters.com/buy").
Proof.
  split; [|split].
  - destruct (load_api_key_resolution
                (lib := sample_lib)
                (env := secrets_env (Some " sk-env ") (Some secrets_text)) fresh_world)
      as (Henv & _).
    apply (Henv " sk-env "); [reflexivity | discriminate].
  - destruct (load_api_key_resolution
                (lib := sample_lib) (env := secrets_env None (Some secrets_text))
                fresh_world)
      as (_ & Hfile & Hquoted & _).
    apply (Hfile secrets_text ["# AgenticLetters"]
                 "AGENTIC_LETTERS_API_KEY='sk-from-file'" [] "sk-from-file").
    + left. reflexivity.
    + intros Hstate. vm_compute in Hstate. discriminate Hstate.
    + reflexivity.
    + vm_compute. reflexivity.
    + intros l v [<- | []] (raw & Hstrip & _). vm_compute in Hstrip. discriminate Hstrip.
    + apply (Hquoted "sk-from-file").
      exists "s"%char, "k-from-file", "e"%char, "sk-from-fil".
      repeat split; reflexivity.
  - destruct (load_api_key_resolution
                (lib := sample_lib) (env := secrets_env (Some "") None) fresh_world)
      as (_ & _ & _ & Hnone).
    apply Hnone.
    + right. reflexivity.
    + left. vm_compute. reflexivity.
Defined.

(* ------------------------------------------------------------------ *)
(** * Further properties of the program                                 *)
(* ------------------------------------------------------------------ *)

(** ** More facts about [strip] and [join] *)

Module StripFacts.

Lemma rstrip_with_all (p : ascii -> bool) (s : string) :
  all_chars p s = true -> rstrip_with p s = "".
Proof.
  induction s as [|c s IH]; cbn; [reflexivity|].
  intros H. apply andb_prop in H. destruct H as [Hc Hs].
  rewrite (IH Hs), Hc. reflexivity.
Qed.

Lemma rstrip_with_empty (p : ascii -> bool) (s : string) :
  rstrip_with p s = "" -> all_chars p s = true.
Proof.
  induction s as [|c s IH]; cbn; [reflexivity|].
  destruct (rstrip_with p s) as [|x r]; [|discriminate].
  destruct (p c); [|discriminate]. intros _. exact (IH eq_refl).
Qed.

Lemma lstrip_with_empty (p : ascii -> bool) (s : string) :
  lstrip_with p s = "" -> all_chars p s = true.
Proof.
  induction s as [|c s IH]; cbn; [reflexivity|].
  destruct (p c); [exact IH | discriminate].
Qed.

Lemma all_chars_rstrip (p : ascii -> bool) (s : string) :
  all_chars p (rstrip_with p s) = true -> all_chars p s = true.
Proof.
  induction s as [|c s IH]; cbn; [reflexivity|].
  destruct (rstrip_with p s) as [|x r] eqn:Hr.
  - rewrite (rstrip_with_empty p s Hr).
    destruct (p c) eqn:Hc; cbn; [reflexivity|].
    rewrite Hc. intros H. discriminate H.
  - cbn [all_chars]. intros H. apply andb_prop in H. destruct H as [Hc Hrest].
    rewrite Hc, (IH Hrest). reflexivity.
Qed.

(** [strip] leaves nothing exactly of the texts made of the set. *)
Lemma strip_with_empty_iff (p : ascii -> bool) (s : string) :
  strip_with p s = "" <-> all_chars p s = true.
Proof.
  unfold strip_with. split.
  - intros H. apply all_chars_rstrip, lstrip_with_empty, H.
  - intros H. rewrite (rstrip_with_all p s H). reflexivity.
Qed.

Lemma lstrip_with_head (p : ascii -> bool) (s : string) (c : ascii) (r : string) :
  lstrip_with p s = String c r -> p c = false.
Proof.
  induction s as [|a s IH]; cbn; [discriminate|].
  destruct (p a) eqn:Ha; [exact IH|].
  intros H. injection H as <- _. exact Ha.
Qed.

Lemma lstrip_with_suffix (p : ascii -> bool) (s : string) :
  exists pre, s = pre ++ lstrip_with p s.
Proof.
  induction s as [|a s [pre IH]]; cbn.
  - exists "". reflexivity.
  - destruct (p a).
    + exists (String a pre). cbn. rewrite <- IH. reflexivity.
    + exists "". reflexivity.
Qed.

Lemma app_last_empty (r : string) (c : ascii) : r ++ String c "" <> "".
Proof. destruct r; discriminate. Qed.

Lemma rstrip_with_last (p : ascii -> bool) (s r : string) (c : ascii) :
  rstrip_with p s = r ++ String c "" -> p c = false.
Proof.
  revert r. induction s as [|a s IH]; intros r; cbn.
  - intros H. symmetry in H. contradiction (app_last_empty _ _ H).
  - destruct (rstrip_with p s) as [|x t] eqn:Hs.
    + destruct (p a) eqn:Ha.
      * intros H. symmetry in H. contradiction (app_last_empty _ _ H).
      * destruct r as [|y r]; cbn; intros H.
        -- injection H as <-. exact Ha.
        -- injection H as _ H. contradiction (app_last_empty _ _ (eq_sym H)).
    + destruct r as [|y r]; cbn; intros H.
      * discriminate H.
      * injection H as _ H. exact (IH r H).
Qed.

(** What [strip] returns neither begins nor ends with a character of the
    set. *)
Lemma strip_with_trimmed (p : ascii -> bool) (s : string) :
  (forall c rest, strip_with p s = String c rest -> p c = false)
  /\ (forall rest c, strip_with p s = rest ++ String c "" -> p c = false).
Proof.
  unfold strip_with. split.
  - intros c rest H. exact (lstrip_with_head p _ c rest H).
  - intros rest c H.
    destruct (lstrip_with_suffix p (rstrip_with p s)) as [pre Hpre].
    rewrite H, <- StrFacts.append_assoc in Hpre.
    exact (rstrip_with_last p s _ c Hpre).
Qed.

Lemma join_cons (sep h : string) (t : list string) :
  join sep (h :: t)
    = h ++ match t with [] => "" | _ :: _ => sep ++ join sep t end.
Proof.
  destruct t as [|x t]; cbn [join]; [|reflexivity].
  induction h as [|c h IH]; cbn; [reflexivity | rewrite <- IH; reflexivity].
Qed.

End StripFacts.

Section Whole_program.

Context {lib : PyLib} {env : Env}.

(** ** What each part does to the world *)

Lemma request_world
    (self : AgenticLettersClient) (method path : string) (body : pyval)
    (w w' : World) (o : Outcome pyval) :
  _request self method path body w = (o, w') ->
  w' = match o with
       | Die err => after_failed_request (build_request self method path body) err w
       | Ret _ | Uncaught _ => add_request (build_request self method path body) 60 w
       end
  /\ match o with
     | Ret v => net_reply (build_request self method path body) 60 = Response (Some v)
     | Die err => origin err <> LOCAL
     | Uncaught _ => True
     end.
Proof.
  run_m.
  destruct (net_reply (build_request self method path body) 60)
    as [[v|] | status reason [[]|] | reason | | exn];
    intros H; injection H as <- <-; split; try reflexivity; discriminate.
Qed.

Lemma key_in_line_ret (line : string) (w : World) :
  exists r, key_in_line line w = (Ret r, w)
            /\ forall val, r = Some val -> val <> "".
Proof.
  unfold key_in_line.
  destruct (startswith (strip line) (ENV_VAR ++ "=")) eqn:Hprefix.
  - apply StrFacts.prefix_inv in Hprefix. destruct Hprefix as [raw Hraw].
    assert (Hstrip : strip line = ENV_VAR ++ "=" ++ raw).
    { rewrite Hraw. apply StrFacts.append_assoc. }
    rewrite Hstrip, key_line_split.
    destruct (String.eqb_spec (unquote raw) "") as [Hempty | Hne]; cbn.
    + exists None. split; [reflexivity | discriminate].
    + exists (Some (unquote raw)). split; [reflexivity|].
      intros val Hval. injection Hval as <-. exact Hne.
  - exists None. split; [reflexivity | discriminate].
Qed.

Lemma scan_lines_ret (lines : list string) (w : World) :
  exists r, scan_lines lines w = (Ret r, w)
            /\ forall val, r = Some val -> val <> "".
Proof.
  induction lines as [|line rest IH]; cbn [scan_lines].
  - exists None. split; [reflexivity | discriminate].
  - unfold bind. destruct (key_in_line_ret line w) as (r & Hr & Hval).
    rewrite Hr. destruct r as [val|]; [|exact IH].
    exists (Some val). split; [reflexivity | exact Hval].
Qed.

(** The three ways the look into the secrets file can end. *)
Lemma key_from_file_cases (w : World) :
  (exists key, key_from_file w = (Ret key, w) /\ key <> "")
  \/ (key_from_file w = (Die no_key_error, add_stderr (format no_key_error ++ newline) w)
      /\ (fs_state ENV_FILE = Absent \/ exists text, fs_read_text ENV_FILE = TextOk text))
  \/ (exists exn,
        key_from_file w = (Uncaught exn, w)
        /\ fs_state ENV_FILE <> Absent /\ fs_read_text ENV_FILE = TextRaises exn).
Proof.
  unfold key_from_file, bind, Path_exists.
  destruct (fs_state ENV_FILE) as [ | | | stat_exn] eqn:Hstate.
  { right. left. split; [reflexivity|]. left. reflexivity. }
  3: { right. right. exists stat_exn. split; [reflexivity|].
       split; [discriminate | exact (fs_stat_fails_read_text _ _ Hstate)]. }
  all: destruct (fs_read_text ENV_FILE) as [text | exn] eqn:Hread.
  all: try (right; right; exists exn; repeat split; discriminate).
  all: cbv beta iota delta [ret].
  all: destruct (scan_lines_ret (splitlines text) w) as (r & Hr & Hval);
    rewrite Hr; destruct r as [val|];
    [ left; exists val; split; [reflexivity | exact (Hval val eq_refl)]
    | right; left; split; [reflexivity | right; exists text; reflexivity] ].
Qed.

Lemma load_api_key_world (w w' : World) (o : Outcome string) :
  load_api_key w = (o, w') ->
  requests w' = requests w
  /\ b64_inputs w' = b64_inputs w
  /\ match o with
     | Die err => origin err = LOCAL
     | Ret _ | Uncaught _ => w' = w
     end.
Proof.
  assert (Hfile : key_from_file w = (o, w') ->
                  requests w' = requests w /\ b64_inputs w' = b64_inputs w
                  /\ match o with
                     | Die err => origin err = LOCAL
                     | Ret _ | Uncaught _ => w' = w
                     end).
  { destruct (key_from_file_cases w)
      as [(key & Hrun & _) | [(Hrun & _) | (exn & Hrun & _)]];
      rewrite Hrun; intros H; injection H as <- <-; repeat split. }
  unfold load_api_key.
  destruct (os_environ ENV_VAR) as [value|]; [|exact Hfile].
  destruct (truthy (PyStr value)); [|exact Hfile].
  intros H. injection H as <- <-. repeat split.
Qed.

Lemma dispatch_world
    (client : AgenticLettersClient) (args : Namespace) (w w' : World) (o : Outcome pyval) :
  dispatch client args w = (o, w') ->
  match o with
  | Ret v =>
      exists req, requests w' = (requests w ++ [(req, 60%Z)])%list
                  /\ net_reply req 60 = Response (Some v)
  | Die err =>
      (origin err = LOCAL /\ requests w' = requests w)
      \/ (origin err <> LOCAL
          /\ exists req, requests w' = (requests w ++ [(req, 60%Z)])%list)
  | Uncaught _ =>
      requests w' = requests w
      \/ exists req, requests w' = (requests w ++ [(req, 60%Z)])%list
  end.
Proof.
  assert (Hreq : forall method path body w0,
             requests w0 = requests w ->
             _request client method path body w0 = (o, w') ->
             match o with
             | Ret v =>
                 exists req, requests w' = (requests w ++ [(req, 60%Z)])%list
                             /\ net_reply req 60 = Response (Some v)
             | Die err =>
                 (origin err = LOCAL /\ requests w' = requests w)
                 \/ (origin err <> LOCAL
                     /\ exists req, requests w' = (requests w ++ [(req, 60%Z)])%list)
             | Uncaught _ =>
                 requests w' = requests w
                 \/ exists req, requests w' = (requests w ++ [(req, 60%Z)])%list
             end).
  { intros method path body w0 Hw0 H.
    destruct (request_world _ _ _ _ _ _ _ H) as [Hw' Ho]. subst w'.
    destruct o as [v | err | exn]; cbn; rewrite Hw0.
    - eexists. split; [reflexivity | exact Ho].
    - right. split; [exact Ho|]. eexists. reflexivity.
    - right. eexists. reflexivity. }
  destruct args as [pdf name street zip city country letter_type label | id | |];
    cbn [dispatch]; try (apply Hreq; reflexivity).
  unfold send_letter, Path_exists, Path_is_file, bind.
  destruct (fs_state pdf); cbn.
  1, 2: intros H; injection H as <- <-; left; split; reflexivity.
  2: { intros H. injection H as <- <-. left. reflexivity. }
  destruct (fs_read_bytes pdf) as [content | | str_e].
  - apply Hreq. reflexivity.
  - intros H. injection H as <- <-. left. split; reflexivity.
  - intros H. injection H as <- <-. left. split; reflexivity.
Qed.

(** How a run of [main] ends, and what it has done by then. *)
Lemma main_world (cl : CommandLine) (w w' : World) (o : Outcome unit) :
  main cl w = (o, w') ->
  match o with
  | Ret _ =>
      exists req v,
        requests w' = (requests w ++ [(req, 60%Z)])%list
        /\ net_reply req 60 = Response (Some v)
        /\ stdout w' = stdout w ++ json_dumps_indent2 v ++ newline
        /\ stderr w' = stderr w
  | Die err =>
      stdout w' = stdout w
      /\ ((origin err = LOCAL /\ requests w' = requests w)
          \/ (origin err <> LOCAL
              /\ exists req, requests w' = (requests w ++ [(req, 60%Z)])%list))
  | Uncaught _ =>
      stdout w' = stdout w /\ stderr w' = stderr w
      /\ (requests w' = requests w
          \/ exists req, requests w' = (requests w ++ [(req, 60%Z)])%list)
  end.
Proof.
  intros H. unfold main, bind in H.
  destruct (load_api_key w) as [[key | e | x] w1] eqn:Hkey.
  - destruct (load_api_key_world _ _ _ Hkey) as (_ & _ & ->).
    destruct (dispatch (mkClient key) (parse_args cl) w) as [[v | e | x] w2] eqn:Hcall.
    + destruct (orderly_dispatch _ _ _ _ _ Hcall) as [Hout Herr]. cbn in Herr.
      destruct (dispatch_world _ _ _ _ _ Hcall) as (req & Hreq & Hreply).
      unfold print in H.
      destruct (stdout_error (json_dumps_indent2 v)); injection H as <- <-.
      * split; [exact Hout|]. split; [exact Herr|]. right. exists req. exact Hreq.
      * exists req, v. cbn. rewrite Hout, Herr.
        repeat split; assumption.
    + destruct (orderly_dispatch _ _ _ _ _ Hcall) as [Hout _].
      injection H as <- <-. split; [exact Hout|]. exact (dispatch_world _ _ _ _ _ Hcall).
    + destruct (orderly_dispatch _ _ _ _ _ Hcall) as [Hout Herr]. cbn in Herr.
      injection H as <- <-. split; [exact Hout|]. split; [exact Herr|].
      exact (dispatch_world _ _ _ _ _ Hcall).
  - destruct (load_api_key_world _ _ _ Hkey) as (Hreq & _ & Ho).
    destruct (orderly_load_api_key _ _ _ Hkey) as [Hout _].
    injection H as <- <-. split; [exact Hout|]. left. split; assumption.
  - destruct (load_api_key_world _ _ _ Hkey) as (_ & _ & ->).
    injection H as <- <-. repeat split. left. reflexivity.
Qed.

Lemma request_body_not_json
    (self : AgenticLettersClient) (method path : string) (body : pyval) (w : World) :
  net_reply (build_request self method path body) 60 = Response None ->
  _request self method path body w
    = (Uncaught JSONDecodeError, add_request (build_request self method path body) 60 w).
Proof. intros Hreply. run_m. rewrite Hreply. reflexivity. Qed.

(** With its document ready, every command comes down to one [_request]. *)
Lemma dispatch_is_request (client : AgenticLettersClient) (cl : CommandLine) (w : World) :
  document_ready cl ->
  exists method path body w1,
    dispatch client (parse_args cl) w = _request client method path body w1
    /\ stdout w1 = stdout w /\ stderr w1 = stderr w.
Proof.
  intros Hdoc. destruct cl as [o | id | |]; cbn [parse_args dispatch].
  - destruct (Hdoc o eq_refl) as (content & Hstate & Hread).
    rewrite (send_letter_readable_run _ _ _ _ _ _ _ _ _ _ _ Hstate Hread).
    do 4 eexists. split; [reflexivity|]. split; reflexivity.
  - do 4 eexists. split; [reflexivity|]. split; reflexivity.
  - do 4 eexists. split; [reflexivity|]. split; reflexivity.
  - do 4 eexists. split; [reflexivity|]. split; reflexivity.
Qed.

Lemma format_head (err : CLIError) :
  exists rest, format err = String "[" (ErrorOrigin_value (origin err) ++ rest).
Proof.
  rewrite format_lines, StripFacts.join_cons.
  eexists. cbn [append]. rewrite StrFacts.append_assoc. reflexivity.
Qed.

(** ** One attempt, and what the origin says about it *)

(** X1: a run of [main] calls the network at most once, whatever the
    command, the machine and the answer of the server, and the call has a
    timeout of 60 seconds: nothing is retried. *)
Theorem main_at_most_one_request (cl : CommandLine) (w : World) :
  requests (snd (main cl w)) = requests w
  \/ exists req, requests (snd (main cl w)) = (requests w ++ [(req, 60%Z)])%list.
Proof.
  destruct (main cl w) as [o w'] eqn:Hmain. cbn [snd].
  pose proof (main_world _ _ _ _ Hmain) as Hworld.
  destruct o as [[] | err | exn].
  - destruct Hworld as (req & v & Hreq & _). right. exists req. exact Hreq.
  - destruct Hworld as (_ & [[_ Hreq] | [_ Hreq]]); [left | right]; exact Hreq.
  - destruct Hworld as (_ & _ & Hreq). exact Hreq.
Qed.

(** X2: when [main] dies, the origin of the error says whether the network
    was used: a Local error means that no call was made, a Server or
    Network error that exactly one was. *)
Theorem main_origin_tells_network
    (cl : CommandLine) (w w' : World) (err : CLIError) :
  main cl w = (Die err, w') ->
  (origin err = LOCAL <-> requests w' = requests w)
  /\ (origin err <> LOCAL <->
      exists req, requests w' = (requests w ++ [(req, 60%Z)])%list).
Proof.
  intros Hmain. pose proof (main_world _ _ _ _ Hmain) as (_ & Hworld).
  assert (Hgrow : forall req, requests w' = (requests w ++ [(req, 60%Z)])%list ->
                              requests w' <> requests w).
  { intros req Hreq Hsame. rewrite Hsame in Hreq.
    apply (f_equal (@List.length _)) in Hreq.
    rewrite List.length_app in Hreq. cbn in Hreq. lia. }
  destruct Hworld as [[Hlocal Hreq] | [Hremote (req & Hreq)]].
  - split; split; intros H.
    + exact Hreq.
    + exact Hlocal.
    + contradiction.
    + destruct H as [req' Hreq']. contradiction (Hgrow req' Hreq' Hreq).
  - split; split; intros H.
    + contradiction.
    + contradiction (Hgrow req Hreq H).
    + exists req. exact Hreq.
    + exact Hremote.
Qed.

(** X3: [main] writes to standard output only when the server answered
    its one request with a JSON value, and what it writes is the dump of
    that value; in every other run standard output is left as it was. *)
Theorem main_prints_only_server_response
    (cl : CommandLine) (w w' : World) (o : Outcome unit) :
  main cl w = (o, w') ->
  match o with
  | Ret _ =>
      exists req v,
        requests w' = (requests w ++ [(req, 60%Z)])%list
        /\ net_reply req 60 = Response (Some v)
        /\ stdout w' = stdout w ++ json_dumps_indent2 v ++ newline
  | Die _ | Uncaught _ => stdout w' = stdout w
  end.
Proof.
  intros Hmain. pose proof (main_world _ _ _ _ Hmain) as Hworld.
  destruct o as [[] | err | exn].
  - destruct Hworld as (req & v & Hreq & Hreply & Hout & _).
    exists req, v. repeat split; assumption.
  - exact (proj1 Hworld).
  - exact (proj1 Hworld).
Qed.

(** X4: without a key nothing else happens.  When the variable is unset or
    empty and the secrets file is missing or has no line that sets the
    key, [main] dies with the error of [load_api_key] for every command:
    the document of a [send] is not looked at, nothing is encoded and no
    call is made. *)
Theorem main_without_key (cl : CommandLine) (w : World) :
  env_var_empty ->
  fs_state ENV_FILE = Absent
  \/ (exists text,
        fs_read_text ENV_FILE = TextOk text
        /\ forall l v, In l (splitlines text) -> ~ sets_key l v) ->
  main cl w = (Die no_key_error, add_stderr (format no_key_error ++ newline) w)
  /\ origin no_key_error = LOCAL
  /\ message no_key_error = PyStr "No API key found".
Proof.
  intros Hempty Hfile. split; [|split; reflexivity].
  unfold main. rewrite (load_api_key_without_env_var Hempty).
  unfold key_from_file, bind, Path_exists.
  destruct Hfile as [Habsent | (text & Hread & Hnone)].
  - rewrite Habsent. reflexivity.
  - destruct (fs_read_text_there _ _ Hread) as [-> | ->]; cbv beta iota delta [ret];
      rewrite Hread, (scan_lines_nothing _ _ Hnone); reflexivity.
Qed.

(** ** The requests of the commands *)

(** X5: [status], [list] and [credits] make one GET without a body, to
    [/letters/<id>], [/letters] and [/credits] under the base URL, with
    the resolved key as bearer token; the id goes into the path as it was
    typed, and nothing is base64-encoded. *)
Theorem main_read_only_request (cl : CommandLine) (key : string) (w : World) :
  fst (load_api_key w) = Ret key ->
  (forall o, cl <> CmdSend o) ->
  let w' := snd (main cl w) in
  requests w'
    = app (requests w)
          [(mkRequest
              (API_BASE ++ match cl with
                           | CmdStatus id => "/letters/" ++ id
                           | CmdCredits => "/credits"
                           | CmdList | CmdSend _ => "/letters"
                           end)
              None
              [ ("Authorization", "Bearer " ++ key);
                ("Content-Type", "application/json");
                ("User-Agent", "agentic-letters-skill/1.0") ]
              "GET", 60%Z)]
  /\ b64_inputs w' = b64_inputs w.
Proof.
  intros Hkey Hnot w'. subst w'. apply load_api_key_returns in Hkey.
  unfold main. rewrite (bind_run _ _ _ _ _ _ _ Hkey). unfold bind.
  destruct cl as [o | id | |]; [contradiction (Hnot o eq_refl) | | |];
    cbn [parse_args dispatch]; unfold get_letter, list_letters, get_credits;
    match goal with
    | |- context [_request ?c ?m ?p ?b ?w0] =>
        destruct (_request c m p b w0) as [[v | e | x] w2] eqn:Hrun;
        destruct (request_world _ _ _ _ _ _ _ Hrun) as [-> _]
    end;
    try (unfold print; destruct (stdout_error (json_dumps_indent2 v)));
    split; reflexivity.
Qed.

(** ** Answers of the server that the claims leave out *)

(** X7: an HTTP error whose body is a JSON object without the key [error]
    is a Server error whose message is [HTTP <status>]; [code], [detail]
    and [field] are the members of the body, [None] where it has none. *)
Theorem request_http_error_json_fallback
    (self : AgenticLettersClient) (method path : string) (body : pyval)
    (status : Z) (reason : string) (kvs : list (string * pyval)) (w : World) :
  net_reply (build_request self method path body) 60
    = RaiseHTTPError status reason (Some (PyDict kvs)) ->
  dict_lookup "error" kvs = None ->
  exists err,
    _request self method path body w
      = (Die err, after_failed_request (build_request self method path body) err w)
    /\ origin err = SERVER
    /\ message err = PyStr ("HTTP " ++ str_int status)
    /\ http_status err = Some status
    /\ code err = dict_get "code" PyNone kvs
    /\ detail err = dict_get "detail" PyNone kvs
    /\ field err = dict_get "field" PyNone kvs.
Proof.
  intros Hreply Hmsg. eexists.
  split; [exact (request_http_error_dict self method path body status reason kvs w Hreply)|].
  cbn. unfold dict_get at 1. rewrite Hmsg. repeat split.
Qed.

(** X15: the message of a Server error is whatever the body holds under
    [error]: for a JSON [null] it is [None], and the rendered error starts
    with [[server] None]. *)
Theorem request_http_error_json_null_message
    (self : AgenticLettersClient) (method path : string) (body : pyval)
    (status : Z) (reason : string) (kvs : list (string * pyval)) (w : World) :
  net_reply (build_request self method path body) 60
    = RaiseHTTPError status reason (Some (PyDict kvs)) ->
  dict_lookup "error" kvs = Some PyNone ->
  exists err rest,
    _request self method path body w
      = (Die err, after_failed_request (build_request self method path body) err w)
    /\ message err = PyNone
    /\ format err = "[server] None" ++ rest.
Proof.
  intros Hreply Hmsg. eexists. eexists.
  split; [exact (request_http_error_dict self method path body status reason kvs w Hreply)|].
  cbn [message]. unfold dict_get at 1. rewrite Hmsg. split; [reflexivity|].
  rewrite format_lines, StripFacts.join_cons. cbn [origin message].
  unfold dict_get at 1. rewrite Hmsg. reflexivity.
Qed.

(** X9: a successful response whose body is not JSON is not classified:
    for every command the JSONDecodeError of [json.loads] reaches the top
    level, so the exit status is 1 although nothing is rendered on
    standard error and nothing is printed. *)
Theorem main_success_body_not_json (cl : CommandLine) (key : string) (w : World) :
  fst (load_api_key w) = Ret key ->
  document_ready cl ->
  (forall req, net_reply req 60 = Response None) ->
  exists w',
    main cl w = (Uncaught JSONDecodeError, w')
    /\ exit_status (fst (main cl w)) = 1%Z
    /\ stdout w' = stdout w
    /\ stderr w' = stderr w.
Proof.
  intros Hkey Hdoc Hnet. apply load_api_key_returns in Hkey.
  destruct (dispatch_is_request (mkClient key) cl w Hdoc)
    as (method & path & body & w1 & Hcall & Hout & Herr).
  assert (Hmain : main cl w
                  = (Uncaught JSONDecodeError,
                     add_request (build_request (mkClient key) method path body) 60 w1)).
  { unfold main. rewrite (bind_run _ _ _ _ _ _ _ Hkey). unfold bind.
    rewrite Hcall, (request_body_not_json _ _ _ _ _ (Hnet _)). reflexivity. }
  eexists. split; [exact Hmain|]. rewrite Hmain. cbn.
  split; [reflexivity|]. split; assumption.
Qed.

(** ** The API key *)

(** X10: when the secrets file is missing or can be read, [load_api_key]
    returns a key or dies with its Local error: no line of the file makes
    the index after [split] fail, and no exception escapes. *)
Theorem load_api_key_readable_secrets (w : World) :
  fs_state ENV_FILE = Absent \/ (exists text, fs_read_text ENV_FILE = TextOk text) ->
  (exists key, load_api_key w = (Ret key, w))
  \/ load_api_key w = (Die no_key_error, add_stderr (format no_key_error ++ newline) w).
Proof.
  intros Hfile.
  assert (Hrest : (exists key, key_from_file w = (Ret key, w))
                  \/ key_from_file w
                     = (Die no_key_error, add_stderr (format no_key_error ++ newline) w)).
  { destruct (key_from_file_cases w)
      as [(key & Hrun & _) | [(Hrun & _) | (exn & _ & Hstate & Hread)]].
    - left. exists key. exact Hrun.
    - right. exact Hrun.
    - destruct Hfile as [Habsent | (text & Htext)].
      + contradiction.
      + rewrite Htext in Hread. discriminate Hread. }
  unfold load_api_key.
  destruct (os_environ ENV_VAR) as [value|]; [|exact Hrest].
  destruct (truthy (PyStr value)); [|exact Hrest].
  left. eexists. reflexivity.
Qed.

(** X11: a secrets file that is there and cannot be read ends every
    command with the exception of [read_text], uncaught: no Local error is
    made, nothing is written, and the exit status is 1. *)
Theorem main_unreadable_secrets (cl : CommandLine) (exn : PyExn) (w : World) :
  env_var_empty ->
  fs_state ENV_FILE <> Absent ->
  fs_read_text ENV_FILE = TextRaises exn ->
  main cl w = (Uncaught exn, w)
  /\ exit_status (fst (main cl w)) = 1%Z.
Proof.
  intros Hempty Hstate Hread.
  assert (Hmain : main cl w = (Uncaught exn, w)).
  { unfold main. rewrite (load_api_key_without_env_var Hempty).
    unfold key_from_file, bind, Path_exists.
    destruct (fs_state ENV_FILE) as [ | | | stat_exn] eqn:Hstat;
      [contradiction Hstate; reflexivity | | |].
    - cbv beta iota delta [ret]. rewrite Hread. reflexivity.
    - cbv beta iota delta [ret]. rewrite Hread. reflexivity.
    - rewrite (fs_stat_fails_read_text _ _ Hstat) in Hread.
      injection Hread as <-. reflexivity. }
  split; [exact Hmain|]. rewrite Hmain. reflexivity.
Qed.

(** X12: [load_api_key] returns the empty key in one case only: the
    environment variable is set, not empty, and made of white space.  A
    key taken from the secrets file is never empty. *)
Theorem load_api_key_empty_key_iff (w : World) :
  fst (load_api_key w) = Ret ""
  <-> exists value, os_environ ENV_VAR = Some value /\ value <> "" /\ blank value = true.
Proof.
  assert (Hfile : fst (key_from_file w) <> Ret "").
  { destruct (key_from_file_cases w)
      as [(key & Hrun & Hne) | [(Hrun & _) | (exn & Hrun & _)]];
      rewrite Hrun; cbn; intros H; [|discriminate H | discriminate H].
    injection H as ->. contradiction Hne. reflexivity. }
  unfold load_api_key. split.
  - destruct (os_environ ENV_VAR) as [value|]; [|intros H; contradiction].
    cbn [truthy].
    destruct (String.eqb_spec value "") as [-> | Hne]; cbn [negb];
      [intros H; contradiction|].
    cbn. intros H. injection H as Hstrip. exists value.
    split; [reflexivity|]. split; [exact Hne|].
    apply StripFacts.strip_with_empty_iff. exact Hstrip.
  - intros (value & -> & Hne & Hblank). cbn [truthy].
    destruct (String.eqb_spec value "") as [-> | _]; [contradiction Hne; reflexivity|].
    cbn. f_equal. apply StripFacts.strip_with_empty_iff. exact Hblank.
Qed.

(** X13: the key taken from the environment variable is its value without
    the white space around it, whatever the secrets file holds: it neither
    begins nor ends with a white space character, a trailing line feed
    included. *)
Theorem load_api_key_env_key_trimmed (value : string) (w : World) :
  os_environ ENV_VAR = Some value ->
  value <> "" ->
  exists key,
    load_api_key w = (Ret key, w)
    /\ key = strip value
    /\ (forall c rest, key = String c rest -> isspace c = false)
    /\ (forall rest c, key = rest ++ String c "" -> isspace c = false).
Proof.
  intros Henv Hne. exists (strip value). split.
  - unfold load_api_key. rewrite Henv. cbn [truthy].
    destruct (String.eqb_spec value ""); [contradiction | reflexivity].
  - split; [reflexivity|]. exact (StripFacts.strip_with_trimmed isspace value).
Qed.

(** ** Rendering *)

(** X14: errors of different origins never render alike: the text that
    [die] writes tells the origin. *)
Theorem format_tells_origin (e1 e2 : CLIError) :
  origin e1 <> origin e2 -> format e1 <> format e2.
Proof.
  intros Hne Heq.
  destruct (format_head e1) as [r1 H1], (format_head e2) as [r2 H2].
  rewrite H1, H2 in Heq.
  destruct (origin e1), (origin e2); try (contradiction Hne; reflexivity);
    cbn in Heq; discriminate Heq.
Qed.

(** ** One pipeline for the four commands *)

Lemma request_outcome_by_reply
    (self1 self2 : AgenticLettersClient) (method1 method2 path1 path2 : string)
    (body1 body2 : pyval) (w1 w2 : World) :
  net_reply (build_request self1 method1 path1 body1) 60
    = net_reply (build_request self2 method2 path2 body2) 60 ->
  fst (_request self1 method1 path1 body1 w1) = fst (_request self2 method2 path2 body2 w2).
Proof.
  intros Hreply. run_m. rewrite Hreply.
  destruct (net_reply (build_request self2 method2 path2 body2) 60)
    as [[v|] | status reason [[]|] | reason | | exn]; reflexivity.
Qed.

(** X16: the commands share one pipeline.  On a machine where the key
    resolves and the server gives every request the same answer, two
    commands whose documents are ready end alike: with the same value, the
    same classified error or the same exception. *)
Theorem main_same_outcome
    (cl1 cl2 : CommandLine) (key : string) (reply : UrlOutcome) (w : World) :
  fst (load_api_key w) = Ret key ->
  document_ready cl1 ->
  document_ready cl2 ->
  (forall req, net_reply req 60 = reply) ->
  fst (main cl1 w) = fst (main cl2 w).
Proof.
  intros Hkey Hdoc1 Hdoc2 Hnet. apply load_api_key_returns in Hkey.
  destruct (dispatch_is_request (mkClient key) cl1 w Hdoc1)
    as (m1 & p1 & b1 & u1 & Hcall1 & _).
  destruct (dispatch_is_request (mkClient key) cl2 w Hdoc2)
    as (m2 & p2 & b2 & u2 & Hcall2 & _).
  unfold main. rewrite !(bind_run _ _ _ _ _ _ _ Hkey). unfold bind.
  rewrite Hcall1, Hcall2.
  assert (Hfst : fst (_request (mkClient key) m1 p1 b1 u1)
                 = fst (_request (mkClient key) m2 p2 b2 u2)).
  { apply request_outcome_by_reply. rewrite !Hnet. reflexivity. }
  destruct (_request (mkClient key) m1 p1 b1 u1) as [[v1 | e1 | x1] u1'],
           (_request (mkClient key) m2 p2 b2 u2) as [[v2 | e2 | x2] u2'];
    cbn in Hfst |- *; try discriminate Hfst; try reflexivity;
    injection Hfst as ->; try reflexivity.
  unfold print. destruct (stdout_error (json_dumps_indent2 v2)); reflexivity.
Qed.

(** ** Quotes in the secrets file *)

(** [strip] leaves a quoted text alone when the quote is outside the set. *)
Lemma strip_with_other_quote (p : ascii -> bool) (q : ascii) (s : string) :
  p q = false -> strip_with p (quoted q s) = quoted q s.
Proof.
  intros Hq.
  exact (StrFacts.strip_with_edges p q q (s ++ String q "") (String q s) eq_refl Hq Hq).
Qed.

(** [strip] removes the two quotes when the quote is in the set and the
    ends of the text are not. *)
Lemma strip_with_own_quote (p : ascii -> bool) (q a z : ascii) (m m' : string) :
  String a m = m' ++ String z "" -> p q = true -> p a = false -> p z = false ->
  strip_with p (quoted q (String a m)) = String a m.
Proof. exact (StrFacts.strip_with_quoted p q a z m m'). Qed.

(** A quote of the set in front only, and behind only. *)
Lemma strip_with_front_quote (p : ascii -> bool) (q a z : ascii) (m m' : string) :
  String a m = m' ++ String z "" -> p q = true -> p a = false -> p z = false ->
  strip_with p (String q (String a m)) = String a m.
Proof.
  intros Heq Hq Ha Hz. unfold strip_with. rewrite Heq.
  change (String q (m' ++ String z "")) with (String q m' ++ String z "").
  rewrite (StrFacts.rstrip_with_kept p _ z Hz). cbn [append]. rewrite <- Heq.
  rewrite (StrFacts.lstrip_with_dropped p q _ Hq). exact (StrFacts.lstrip_with_kept p a m Ha).
Qed.

Lemma strip_with_back_quote (p : ascii -> bool) (q a z : ascii) (m m' : string) :
  String a m = m' ++ String z "" -> p q = true -> p a = false -> p z = false ->
  strip_with p (String a m ++ String q "") = String a m.
Proof.
  intros Heq Hq Ha Hz. unfold strip_with.
  rewrite (StrFacts.rstrip_with_dropped p _ q Hq).
  rewrite Heq at 1. rewrite (StrFacts.rstrip_with_kept p m' z Hz), <- Heq.
  exact (StrFacts.lstrip_with_kept p a m Ha).
Qed.

(** X17: the quotes around a value are removed kind by kind, double quotes
    first: single quotes inside double quotes go as well, double quotes
    inside single quotes stay, and the two ends need not match. *)
Theorem unquote_nested (v : string) :
  plain v ->
  unquote (quoted double_quote (quoted single_quote v)) = v
  /\ unquote (quoted single_quote (quoted double_quote v)) = quoted double_quote v
  /\ unquote (String double_quote (v ++ String single_quote "")) = v
  /\ unquote (String single_quote (v ++ String double_quote "")) = v.
Proof.
  intros (a & m & z & m' & Hhead & Hlast & (Ha1 & Ha2 & Ha3) & (Hz1 & Hz2 & Hz3)).
  assert (Heq : String a m = m' ++ String z "") by (rewrite <- Hhead; exact Hlast).
  subst v. unfold unquote, strip, strip_char.
  split; [|split; [|split]].
  - rewrite (strip_with_other_quote isspace double_quote _ eq_refl).
    assert (Hdq : strip_with (Ascii.eqb double_quote)
                    (quoted double_quote (quoted single_quote (String a m)))
                  = quoted single_quote (String a m)).
    { exact (strip_with_own_quote (Ascii.eqb double_quote) double_quote
               single_quote single_quote (String a m ++ String single_quote "")
               (String single_quote (String a m)) eq_refl eq_refl eq_refl eq_refl). }
    rewrite Hdq.
    exact (strip_with_own_quote _ single_quote a z m m' Heq eq_refl Ha3 Hz3).
  - rewrite (strip_with_other_quote isspace single_quote _ eq_refl).
    rewrite (strip_with_other_quote (Ascii.eqb double_quote) single_quote _ eq_refl).
    exact (strip_with_own_quote (Ascii.eqb single_quote) single_quote
             double_quote double_quote (String a m ++ String double_quote "")
             (String double_quote (String a m)) eq_refl eq_refl eq_refl eq_refl).
  - assert (Hsp : strip_with isspace
                    (String double_quote (String a m ++ String single_quote ""))
                  = String double_quote (String a m ++ String single_quote "")).
    { exact (StrFacts.strip_with_edges isspace double_quote single_quote _
               (String double_quote (String a m)) eq_refl eq_refl eq_refl). }
    rewrite Hsp.
    assert (Hdq : strip_with (Ascii.eqb double_quote)
                    (String double_quote (String a m ++ String single_quote ""))
                  = String a m ++ String single_quote "").
    { exact (strip_with_front_quote (Ascii.eqb double_quote) double_quote a single_quote
               (m ++ String single_quote "") (String a m)
               eq_refl eq_refl Ha2 eq_refl). }
    rewrite Hdq.
    exact (strip_with_back_quote _ single_quote a z m m' Heq eq_refl Ha3 Hz3).
  - assert (Hsp : strip_with isspace
                    (String single_quote (String a m ++ String double_quote ""))
                  = String single_quote (String a m ++ String double_quote "")).
    { exact (StrFacts.strip_with_edges isspace single_quote double_quote _
               (String single_quote (String a m)) eq_refl eq_refl eq_refl). }
    rewrite Hsp.
    assert (Hdq : strip_with (Ascii.eqb double_quote)
                    (String single_quote (String a m ++ String double_quote ""))
                  = String single_quote (String a m)).
    { assert (Heq' : String single_quote (String a m)
                     = String single_quote m' ++ String z "").
      { cbn [append]. rewrite <- Heq. reflexivity. }
      exact (strip_with_back_quote (Ascii.eqb double_quote) double_quote single_quote z
               (String a m) (String single_quote m') Heq' eq_refl eq_refl Hz2). }
    rewrite Hdq.
    exact (strip_with_front_quote _ single_quote a z m m' Heq eq_refl Ha3 Hz3).
Qed.

End Whole_program.

(** ** The further properties on the sample machines *)

(** X2 at a [send] of a directory and at a server that answers 404. *)
Lemma main_origin_tells_network_witness :
  requests (snd (main (lib := sample_lib) (env := sample_env RaiseTimeoutError)
                      (CmdSend (mkSendOptions "/tmp" "Ada" "Main St 1" "10115" "Berlin"
                                              None None None))
                      fresh_world)) = []
  /\ exists req,
       requests (snd (main (lib := sample_lib)
                           (env := sample_env (RaiseHTTPError 404 "Not Found" None))
                           (CmdStatus "no-such-letter") fresh_world))
       = [(req, 60%Z)].
Proof.
  split.
  - destruct (main_origin_tells_network
                (lib := sample_lib) (env := sample_env RaiseTimeoutError)
                (CmdSend (mkSendOptions "/tmp" "Ada" "Main St 1" "10115" "Berlin"
                                        None None None))
                fresh_world _
                (mkCLIError LOCAL (PyStr "Not a file: /tmp") PyNone PyNone PyNone None)
                eq_refl) as [[Hlocal _] _].
    exact (Hlocal eq_refl).
  - destruct (main_origin_tells_network
                (lib := sample_lib)
                (env := sample_env (RaiseHTTPError 404 "Not Found" None))
                (CmdStatus "no-such-letter") fresh_world _
                (mkCLIError SERVER (PyStr "HTTP 404 with non-JSON response") PyNone
                            (PyStr "Not Found") PyNone (Some 404%Z))
                eq_refl) as [_ [Hremote _]].
    apply Hremote. discriminate.
Defined.

(** X3 at a successful [list]. *)
Lemma main_prints_only_server_response_witness :
  exists req v,
    net_reply (Env := sample_env (Response (Some (PyDict [("letters", PyList [])]))))
              req 60
      = Response (Some v)
    /\ stdout (snd (main (lib := sample_lib)
                         (env := sample_env
                                   (Response (Some (PyDict [("letters", PyList [])]))))
                         CmdList fresh_world))
       = json_dumps_indent2 (PyLib := sample_lib) v ++ newline.
Proof.
  destruct (main_prints_only_server_response
              (lib := sample_lib)
              (env := sample_env (Response (Some (PyDict [("letters", PyList [])]))))
              CmdList fresh_world _ (Ret tt) eq_refl)
    as (req & v & _ & Hreply & Hout).
  exists req, v. split; [exact Hreply | exact Hout].
Defined.

(** X4 at a [send] of a missing document on a machine without key. *)
Lemma main_without_key_witness :
  main (lib := sample_lib) (env := secrets_env None None)
       (CmdSend (mkSendOptions "/nowhere.pdf" "Ada" "Main St 1" "10115" "Berlin"
                               None None None))
       fresh_world
  = (Die (no_key_error (lib := sample_lib)),
     mkWorld ""
             ("[local] No API key found" ++ newline ++
              "  detail: Set AGENTIC_LETTERS_API_KEY in environment or in " ++
              "/home/ada/.openclaw/secrets/agentic_letters.env. " ++
              "Get a key at https://agentic-letters.com/buy" ++ newline)
             [] []).
Proof.
  exact (proj1 (main_without_key
                  (lib := sample_lib) (env := secrets_env None None)
                  (CmdSend (mkSendOptions "/nowhere.pdf" "Ada" "Main St 1" "10115"
                                          "Berlin" None None None))
                  fresh_world (or_introl eq_refl) (or_introl eq_refl))).
Defined.

(** X5 at the status of a letter. *)
Lemma main_read_only_request_witness :
  requests (snd (main (lib := sample_lib) (env := sample_env RaiseTimeoutError)
                      (CmdStatus "7f3a") fresh_world))
  = [(mkRequest "https://agentic-letters.com/api/letters/7f3a" None
                [ ("Authorization", "Bearer sk-test");
                  ("Content-Type", "application/json");
                  ("User-Agent", "agentic-letters-skill/1.0") ]
                "GET", 60%Z)].
Proof.
  assert (Hnot : forall o, CmdStatus "7f3a" <> CmdSend o).
  { intros o H. discriminate H. }
  exact (proj1 (main_read_only_request
                  (lib := sample_lib) (env := sample_env RaiseTimeoutError)
                  (CmdStatus "7f3a") "sk-test" fresh_world eq_refl Hnot)).
Defined.

(** X6 at a [send] of the sample letter with a label and no other option. *)
Lemma main_send_request_witness :
  requests (snd (main (lib := sample_lib)
                      (env := sample_env (Response (Some (PyDict []))))
                      (CmdSend (mkSendOptions "/tmp/letter.pdf" "Ada" "Main St 1" "10115"
                                              "Berlin" None None (Some "invoice 7")))
                      fresh_world))
  = [(mkRequest "https://agentic-letters.com/api/letters"
        (Some (encode
           (json_dumps (PyLib := sample_lib)
              (PyDict [ ("pdf", PyStr "JVBERi0xLjQ=");
                        ("recipient", PyDict [ ("name", PyStr "Ada");
                                               ("street", PyStr "Main St 1");
                                               ("zip", PyStr "10115");
                                               ("city", PyStr "Berlin");
                                               ("country", PyStr "DE") ]);
                        ("type", PyStr "standard");
                        ("label", PyStr "invoice 7") ]))))
        [ ("Authorization", "Bearer sk-test");
          ("Content-Type", "application/json");
          ("User-Agent", "agentic-letters-skill/1.0") ]
        "POST", 60%Z)].
Proof.
  exact (main_send_request
           (lib := sample_lib) (env := sample_env (Response (Some (PyDict []))))
           (mkSendOptions "/tmp/letter.pdf" "Ada" "Main St 1" "10115" "Berlin"
                          None None (Some "invoice 7"))
           "sk-test" sample_pdf fresh_world eq_refl eq_refl eq_refl).
Defined.

(** X7 at an HTTP 422 whose body has no [error]. *)
Lemma request_http_error_json_fallback_witness :
  exists err w',
    _request (lib := sample_lib)
             (env := sample_env (RaiseHTTPError 422 "Unprocessable Entity"
                                                (Some field_only_body)))
             sample_client "POST" "/letters" PyNone fresh_world
      = (Die err, w')
    /\ message err = PyStr "HTTP 422"
    /\ field err = PyStr "zip"
    /\ code err = PyNone.
Proof.
  destruct (request_http_error_json_fallback
              (lib := sample_lib)
              (env := sample_env (RaiseHTTPError 422 "Unprocessable Entity"
                                                 (Some field_only_body)))
              sample_client "POST" "/letters" PyNone 422 "Unprocessable Entity"
              [("field", PyStr "zip")] fresh_world eq_refl eq_refl)
    as (err & Hrun & _ & Hmsg & _ & Hcode & _ & Hfield).
  exists err. eexists. split; [exact Hrun|].
  split; [exact Hmsg|]. split; [exact Hfield | exact Hcode].
Defined.

(** X8 at an HTTP 502 whose body is the JSON text [null]. *)
Lemma request_http_error_not_a_dict_witness :
  fst (_request (lib := sample_lib)
                (env := sample_env (RaiseHTTPError 502 "Bad Gateway" (Some null_body)))
                sample_client "GET" "/credits" PyNone fresh_world)
  = Uncaught AttributeError.
Proof.
  rewrite (request_http_error_not_a_dict
             (lib := sample_lib)
             (env := sample_env (RaiseHTTPError 502 "Bad Gateway" (Some null_body)))
             sample_client "GET" "/credits" PyNone 502 "Bad Gateway" null_body
             fresh_world eq_refl).
  - reflexivity.
  - intros kvs H. discriminate H.
Defined.

(** X9 at a [list] answered with a page that is not JSON. *)
Lemma main_success_body_not_json_witness :
  exists w',
    main (lib := sample_lib) (env := sample_env (Response None)) CmdList fresh_world
      = (Uncaught JSONDecodeError, w')
    /\ stdout w' = "" /\ stderr w' = "".
Proof.
  destruct (main_success_body_not_json
              (lib := sample_lib) (env := sample_env (Response None))
              CmdList "sk-test" fresh_world eq_refl)
    as (w' & Hrun & _ & Hout & Herr).
  - intros o H. discriminate H.
  - intros req. reflexivity.
  - exists w'. split; [exact Hrun|]. split; [exact Hout | exact Herr].
Defined.

(** X10 at the sample secrets file. *)
Lemma load_api_key_readable_secrets_witness :
  (exists key,
      load_api_key (lib := sample_lib) (env := secrets_env None (Some secrets_text))
                   fresh_world = (Ret key, fresh_world))
  \/ load_api_key (lib := sample_lib) (env := secrets_env None (Some secrets_text))
                  fresh_world
     = (Die (no_key_error (lib := sample_lib)),
        add_stderr (format (lib := sample_lib) (no_key_error (lib := sample_lib))
                    ++ newline) fresh_world).
Proof.
  apply (load_api_key_readable_secrets
           (lib := sample_lib) (env := secrets_env None (Some secrets_text)) fresh_world).
  right. exists secrets_text. reflexivity.
Defined.

(** X11 at a secrets file without read permission. *)
Lemma main_unreadable_secrets_witness :
  main (lib := sample_lib) (env := locked_secrets_env None) CmdCredits fresh_world
  = (Uncaught (OtherExn "PermissionError"), fresh_world).
Proof.
  apply (main_unreadable_secrets
           (lib := sample_lib) (env := locked_secrets_env None) CmdCredits
           (OtherExn "PermissionError") fresh_world).
  - left. reflexivity.
  - intros H. vm_compute in H. discriminate H.
  - reflexivity.
Defined.

(** X13 at a variable that ends with a line feed. *)
Lemma load_api_key_env_key_trimmed_witness :
  exists key,
    load_api_key (lib := sample_lib)
                 (env := secrets_env (Some ("sk-env" ++ newline)) (Some secrets_text))
                 fresh_world
      = (Ret key, fresh_world)
    /\ key = "sk-env".
Proof.
  destruct (load_api_key_env_key_trimmed
              (lib := sample_lib)
              (env := secrets_env (Some ("sk-env" ++ newline)) (Some secrets_text))
              ("sk-env" ++ newline) fresh_world eq_refl)
    as (key & Hrun & Hkey & _).
  - discriminate.
  - exists key. split; [exact Hrun|]. rewrite Hkey. reflexivity.
Defined.

(** X14 at a Local and a Server error with the same message. *)
Lemma format_tells_origin_witness :
  format (lib := sample_lib)
         (mkCLIError LOCAL (PyStr "Not a file: /tmp") PyNone PyNone PyNone None)
  <> format (lib := sample_lib)
            (mkCLIError SERVER (PyStr "Not a file: /tmp") PyNone PyNone PyNone None).
Proof.
  apply (format_tells_origin (lib := sample_lib)). discriminate.
Defined.

(** X15 at an HTTP 400 whose [error] is [null]. *)
Lemma request_http_error_json_null_message_witness :
  exists err w',
    _request (lib := sample_lib)
             (env := sample_env (RaiseHTTPError 400 "Bad Request" (Some null_error_body)))
             sample_client "GET" "/credits" PyNone fresh_world
      = (Die err, w')
    /\ message err = PyNone
    /\ exists rest, format (lib := sample_lib) err = "[server] None" ++ rest.
Proof.
  destruct (request_http_error_json_null_message
              (lib := sample_lib)
              (env := sample_env (RaiseHTTPError 400 "Bad Request" (Some null_error_body)))
              sample_client "GET" "/credits" PyNone 400 "Bad Request"
              [("error", PyNone); ("code", PyStr "E42")] fresh_world eq_refl eq_refl)
    as (err & rest & Hrun & Hmsg & Hformat).
  exists err. eexists. split; [exact Hrun|]. split; [exact Hmsg|].
  exists rest. exact Hformat.
Defined.

(** X16 at [list] and [credits] on a server that does not answer in time. *)
Lemma main_same_outcome_witness :
  fst (main (lib := sample_lib) (env := sample_env RaiseTimeoutError) CmdList fresh_world)
  = fst (main (lib := sample_lib) (env := sample_env RaiseTimeoutError) CmdCredits
              fresh_world).
Proof.
  apply (main_same_outcome
           (lib := sample_lib) (env := sample_env RaiseTimeoutError)
           CmdList CmdCredits "sk-test" RaiseTimeoutError fresh_world).
  - reflexivity.
  - intros o H. discriminate H.
  - intros o H. discriminate H.
  - intros req. reflexivity.
Defined.

(** X17 at the key [sk-1]. *)
Lemma unquote_nested_witness :
  unquote (quoted double_quote (quoted single_quote "sk-1")) = "sk-1"
  /\ unquote (quoted single_quote (quoted double_quote "sk-1"))
     = quoted double_quote "sk-1".
Proof.
  destruct (unquote_nested "sk-1") as (H1 & H2 & _).
  - exists "s"%char, "k-1", "1"%char, "sk-". repeat split; reflexivity.
  - split; [exact H1 | exact H2].
Defined.
